(** * NCBI Gene MCP client: the bridge, embedded and verified

    A shallow embedding of [ncbi_gene_mcp_client/bridge.py] (class
    [NCBIBridge] and dataclass [Config]) together with the entities of
    [ncbi_gene_mcp_client/models.py], followed by the properties of the
    bridge that the design document states.

    Conventions of the embedding.
    - A Python [str] is a Rocq [string] read as a sequence of code points
      below 256.
    - A Python [float] is a rational ([Q]); rounding is not modelled.
    - A decoded JSON document is a [json] value; a [dict] is an association
      list in insertion order whose keys are looked up first-match.
    - Code that raises returns [Raise e]; code that reads the clock, sleeps
      or talks to the network is a function on an explicit [state]. *)

From Stdlib Require Import ZArith QArith String Ascii List Bool Lia Lqa.
From Stdlib Require Import DecimalString DecimalPos.
Import ListNotations.

Open Scope string_scope.
Open Scope Z_scope.

(** ** Python values *)

(** The values [json.loads] produces. *)
#[warnings="-register-all"]
Inductive json : Type :=
| JNull
| JBool (b : bool)
| JInt (n : Z)
| JFloat (q : Q)
| JStr (s : string)
| JList (l : list json)
| JDict (d : list (string * json)).

Definition dict := list (string * json).

(** [d.get(k)] on an association list; [None] when the key is missing. *)
Fixpoint dict_lookup (k : string) (d : dict) : option json :=
  match d with
  | [] => None
  | (k', v) :: d' => if String.eqb k k' then Some v else dict_lookup k d'
  end.

(** [d.get(k, default)] *)
Definition dict_get (k : string) (default : json) (d : dict) : json :=
  match dict_lookup k d with
  | Some v => v
  | None => default
  end.

(** [k in d] *)
Definition dict_mem (k : string) (d : dict) : bool :=
  match dict_lookup k d with
  | Some _ => true
  | None => false
  end.

(** [d[k] = v]: an existing key keeps its position, a new key goes last. *)
Fixpoint dict_set (k : string) (v : json) (d : dict) : dict :=
  match d with
  | [] => [(k, v)]
  | (k', v') :: d' =>
      if String.eqb k k' then (k', v) :: d' else (k', v') :: dict_set k v d'
  end.

(** [d.update(other)] *)
Definition dict_update (d other : dict) : dict :=
  fold_left (fun acc kv => dict_set (fst kv) (snd kv) acc) other d.

(** Truth value of a Python object, as tested by [if x:] and [not x]. *)
Definition truthy (v : json) : bool :=
  match v with
  | JNull => false
  | JBool b => b
  | JInt n => negb (n =? 0)
  | JFloat q => negb (Qeq_bool q 0)
  | JStr s => negb (String.eqb s "")
  | JList l => match l with [] => false | _ => true end
  | JDict d => match d with [] => false | _ => true end
  end.

(** Truth value of an [Optional[str]]. *)
Definition truthy_opt (o : option string) : bool :=
  match o with
  | Some s => negb (String.eqb s "")
  | None => false
  end.

(** ** Strings *)

(** [ch.isspace()] for code points below 256. *)
Definition is_space (c : ascii) : bool :=
  let n := nat_of_ascii c in
  ((9 <=? n) && (n <=? 13) || (28 <=? n) && (n <=? 32)
   || (n =? 133) || (n =? 160))%nat.

Fixpoint lstrip (s : string) : string :=
  match s with
  | EmptyString => EmptyString
  | String c s' => if is_space c then lstrip s' else s
  end.

Fixpoint rstrip (s : string) : string :=
  match s with
  | EmptyString => EmptyString
  | String c s' =>
      let r := rstrip s' in
      if is_space c && String.eqb r "" then EmptyString else String c r
  end.

(** [s.strip()] *)
Definition strip (s : string) : string := rstrip (lstrip s).

(** Prepend a character to the first piece of a split. *)
Definition push_head (c : ascii) (l : list string) : list string :=
  match l with
  | [] => [String c EmptyString]
  | h :: t => String c h :: t
  end.

(** [skip] counts the characters of a matched separator still to drop. *)
Fixpoint split_aux (sep s : string) (skip : nat) : list string :=
  match s with
  | EmptyString => [EmptyString]
  | String c s' =>
      match skip with
      | S k => split_aux sep s' k
      | O =>
          if String.prefix sep s
          then EmptyString :: split_aux sep s' (String.length sep - 1)
          else push_head c (split_aux sep s' 0)
      end
  end.

(** [s.split(sep)] for a non-empty separator. *)
Definition split (sep s : string) : list string := split_aux sep s 0.

(** [str(n)] for an integer. *)
Definition str_of_Z (n : Z) : string := NilZero.string_of_int (Z.to_int n).

Definition is_digit (c : ascii) : bool :=
  let n := nat_of_ascii c in ((48 <=? n) && (n <=? 57))%nat.

Definition digit_val (c : ascii) : Z := Z.of_nat (nat_of_ascii c) - 48.

(** Decimal digits with single underscores between them. *)
Fixpoint digits_value (s : string) (acc : Z) (after_digit : bool) : option Z :=
  match s with
  | EmptyString => if after_digit then Some acc else None
  | String c s' =>
      if is_digit c then digits_value s' (10 * acc + digit_val c) true
      else if Ascii.eqb c "_"
           then if after_digit then digits_value s' acc false else None
           else None
  end.

(** The text accepted by [int(s)]: optional surrounding white space, an
    optional sign, then digits. *)
Definition int_of_string (s : string) : option Z :=
  match strip s with
  | String "-" ds => option_map Z.opp (digits_value ds 0 false)
  | String "+" ds => digits_value ds 0 false
  | ds => digits_value ds 0 false
  end.

(** ** Exceptions *)

(** The exception classes that the bridge and the library calls it makes
    can raise.  [Exception msg] is the bare [raise Exception(msg)] of the
    bridge itself. *)
Inductive exn : Type :=
| Exception (msg : string)
| ValueError
| TypeError
| AttributeError
| ValidationError
| Timeout
| ConnectionError
| JSONDecodeError.

Inductive exn_class : Type :=
| CException | CValueError | CTypeError | CAttributeError
| CValidationError | CTimeout | CConnectionError | CJSONDecodeError.

(** [type(e)] *)
Definition class_of (e : exn) : exn_class :=
  match e with
  | Exception _ => CException
  | ValueError => CValueError
  | TypeError => CTypeError
  | AttributeError => CAttributeError
  | ValidationError => CValidationError
  | Timeout => CTimeout
  | ConnectionError => CConnectionError
  | JSONDecodeError => CJSONDecodeError
  end.

Definition exn_class_eqb (a b : exn_class) : bool :=
  match a, b with
  | CException, CException | CValueError, CValueError
  | CTypeError, CTypeError | CAttributeError, CAttributeError
  | CValidationError, CValidationError | CTimeout, CTimeout
  | CConnectionError, CConnectionError
  | CJSONDecodeError, CJSONDecodeError => true
  | _, _ => false
  end.

Inductive result (A : Type) : Type :=
| Ok (a : A)
| Raise (e : exn).
Arguments Ok {A} a.
Arguments Raise {A} e.

Definition is_ok {A} (r : result A) : bool :=
  match r with Ok _ => true | Raise _ => false end.

(** [int(x)] *)
Definition py_int (v : json) : result Z :=
  match v with
  | JInt n => Ok n
  | JBool b => Ok (if b then 1 else 0)
  | JFloat q => Ok (Z.quot (Qnum q) (Zpos (Qden q)))
  | JStr s =>
      match int_of_string s with
      | Some n => Ok n
      | None => Raise ValueError
      end
  | JNull | JList _ | JDict _ => Raise TypeError
  end.

(** [x.get]: only a dict has the attribute. *)
Definition as_dict (v : json) : result dict :=
  match v with
  | JDict d => Ok d
  | _ => Raise AttributeError
  end.

(** ** [repr] and [str] *)

Definition hex_digit (n : nat) : ascii :=
  ascii_of_nat (if (n <? 10)%nat then 48 + n else 87 + n).

(** [c.isprintable()] for code points below 256. *)
Definition is_printable (c : ascii) : bool :=
  let n := nat_of_ascii c in
  ((32 <=? n) && (n <=? 126) || (161 <=? n) && negb (n =? 173))%nat.

Definition repr_char (quote c : ascii) : string :=
  if Ascii.eqb c quote || Ascii.eqb c "\" then String "\" (String c "")
  else if Ascii.eqb c (ascii_of_nat 9) then "\t"
  else if Ascii.eqb c (ascii_of_nat 10) then "\n"
  else if Ascii.eqb c (ascii_of_nat 13) then "\r"
  else if is_printable c then String c ""
  else let n := nat_of_ascii c in
       String "\" (String "x" (String (hex_digit (n / 16))
                                (String (hex_digit (n mod 16)) ""))).

Fixpoint contains_char (c : ascii) (s : string) : bool :=
  match s with
  | EmptyString => false
  | String c' s' => Ascii.eqb c c' || contains_char c s'
  end.

Definition squote : ascii := ascii_of_nat 39.
Definition dquote : ascii := ascii_of_nat 34.

(** [repr(s)] for a string. *)
Definition repr_str (s : string) : string :=
  let quote :=
    if contains_char squote s && negb (contains_char dquote s)
    then dquote else squote in
  String quote
    (String.concat "" (map (repr_char quote) (list_ascii_of_string s))
     ++ String quote "").

(** What the embedding takes from the interpreter and from pydantic
    without modelling it: how a [float] prints, and which strings the lax
    mode of an [int] field accepts. *)
Class Runtime : Type := {
  float_repr : Q -> string;
  lax_int_of_str : string -> option Z
}.

Section Values.
Context {RT : Runtime}.

(** [repr(x)] *)
Fixpoint py_repr (v : json) : string :=
  match v with
  | JNull => "None"
  | JBool b => if b then "True" else "False"
  | JInt n => str_of_Z n
  | JFloat q => float_repr q
  | JStr s => repr_str s
  | JList l => "[" ++ String.concat ", " (map py_repr l) ++ "]"
  | JDict d =>
      "{" ++ String.concat ", "
               (map (fun kv => repr_str (fst kv) ++ ": " ++ py_repr (snd kv)) d)
          ++ "}"
  end.

(** [str(x)] *)
Definition py_str (v : json) : string :=
  match v with
  | JStr s => s
  | _ => py_repr v
  end.

End Values.

(** ** Entities ([models.py]) *)

Module GeneInfo.
Record t : Type := make {
  gene_id : string;
  name : string;
  description : string;
  organism : string;
  chromosome : option string;
  map_location : option string;
  gene_type : option string;
  other_aliases : option (list string);
  summary : option string
}.
End GeneInfo.

Module ProteinInfo.
Record t : Type := make {
  protein_id : string;
  title : string;
  organism : string;
  length : option Z;
  mol_type : option string
}.
End ProteinInfo.

Module SearchResult.
Record t : Type := make {
  count : Z;
  ids : list string;
  query_translation : option string
}.
End SearchResult.

(** *** Field validation done by the model constructors

    The models are pydantic models: a constructor checks every argument
    against the declared type of its field and raises [ValidationError]
    when one does not fit. *)

(** a field of type [str] *)
Definition validate_str (v : json) : result string :=
  match v with
  | JStr s => Ok s
  | _ => Raise ValidationError
  end.

(** a field of type [Optional[str]] *)
Definition validate_opt_str (v : json) : result (option string) :=
  match v with
  | JNull => Ok None
  | JStr s => Ok (Some s)
  | _ => Raise ValidationError
  end.

Fixpoint validate_strs (l : list json) : result (list string) :=
  match l with
  | [] => Ok []
  | v :: l' =>
      match validate_str v, validate_strs l' with
      | Ok s, Ok ss => Ok (s :: ss)
      | _, _ => Raise ValidationError
      end
  end.

(** a field of type [List[str]] *)
Definition validate_list_str (v : json) : result (list string) :=
  match v with
  | JList l => validate_strs l
  | _ => Raise ValidationError
  end.

(** a field of type [Optional[List[str]]] *)
Definition validate_opt_list_str (v : json) : result (option (list string)) :=
  match v with
  | JNull => Ok None
  | JList l =>
      match validate_strs l with
      | Ok ss => Ok (Some ss)
      | Raise e => Raise e
      end
  | _ => Raise ValidationError
  end.

Section Models.
Context {RT : Runtime}.

(** a field of type [Optional[int]] *)
Definition validate_opt_int (v : json) : result (option Z) :=
  match v with
  | JNull => Ok None
  | JInt n => Ok (Some n)
  | JBool b => Ok (Some (if b then 1 else 0))
  | JFloat q =>
      if (Qnum q mod Zpos (Qden q) =? 0)
      then Ok (Some (Qnum q / Zpos (Qden q)))
      else Raise ValidationError
  | JStr s =>
      match lax_int_of_str s with
      | Some n => Ok (Some n)
      | None => Raise ValidationError
      end
  | _ => Raise ValidationError
  end.

(** [GeneInfo(gene_id=..., name=..., ...)] *)
Definition new_GeneInfo (gene_id : string)
    (name description organism chromosome map_location gene_type
     other_aliases summary : json) : result GeneInfo.t :=
  match validate_str name, validate_str description, validate_str organism,
        validate_opt_str chromosome, validate_opt_str map_location,
        validate_opt_str gene_type, validate_opt_list_str other_aliases,
        validate_opt_str summary with
  | Ok n, Ok d, Ok o, Ok c, Ok m, Ok g, Ok a, Ok s =>
      Ok (GeneInfo.make gene_id n d o c m g a s)
  | _, _, _, _, _, _, _, _ => Raise ValidationError
  end.

(** [ProteinInfo(protein_id=..., title=..., ...)] *)
Definition new_ProteinInfo (protein_id : string)
    (title organism length mol_type : json) : result ProteinInfo.t :=
  match validate_str title, validate_str organism, validate_opt_int length,
        validate_opt_str mol_type with
  | Ok t, Ok o, Ok l, Ok m => Ok (ProteinInfo.make protein_id t o l m)
  | _, _, _, _ => Raise ValidationError
  end.

(** [SearchResult(count=..., ids=..., query_translation=...)]; [count] is
    already an [int] where the bridge calls it. *)
Definition new_SearchResult (count : Z) (ids query_translation : json)
  : result SearchResult.t :=
  match validate_list_str ids, validate_opt_str query_translation with
  | Ok i, Ok q => Ok (SearchResult.make count i q)
  | _, _ => Raise ValidationError
  end.

End Models.

(** ** Configuration and bridge object *)

Record Config : Type := {
  base_url : string;
  email : option string;
  api_key : option string;
  timeout : Q;
  request_delay : Q
}.

(** [Config(base_url=..., email=..., api_key=..., timeout=...,
    request_delay=...)]: the generated [__init__] of the dataclass.  An
    argument that is not passed takes the default of its field; nothing is
    checked. *)
Definition new_Config (base_url : option string) (email api_key : option string)
    (timeout request_delay : option Q) : result Config :=
  Ok {| base_url :=
          match base_url with
          | Some u => u
          | None => "https://eutils.ncbi.nlm.nih.gov/entrez/eutils"
          end;
        email := email;
        api_key := api_key;
        timeout := match timeout with Some t => t | None => 30%Q end;
        request_delay :=
          match request_delay with Some d => d | None => (34 # 100)%Q end |}.

(** [Config()] *)
Definition default_Config : Config :=
  {| base_url := "https://eutils.ncbi.nlm.nih.gov/entrez/eutils";
     email := None;
     api_key := None;
     timeout := 30%Q;
     request_delay := (34 # 100)%Q |}.

(** The attributes of an [NCBIBridge]; [session_headers] holds the headers
    the bridge puts on its [requests.Session]. *)
Record NCBIBridge : Type := {
  config : Config;
  session_headers : list (string * string);
  last_request_time : Q
}.

(** [NCBIBridge.__init__] *)
Definition NCBIBridge_init (config : option Config) : NCBIBridge :=
  let config := match config with Some c => c | None => default_Config end in
  let headers := [("User-Agent", "NCBI-Gene-MCP-Client/1.0")] in
  let headers :=
    match email config with
    | Some e => if negb (String.eqb e "") then (headers ++ [("email", e)])%list
                else headers
    | None => headers
    end in
  {| config := config; session_headers := headers; last_request_time := 0 |}.

(** ** The outside world: clock and upstream service *)

Record request : Type := {
  url : string;
  params : dict;
  headers : list (string * string);
  req_timeout : Q
}.

(** What one [GET] comes back with.  [body] is the decoded JSON of [text],
    [None] when [text] is not JSON. *)
Inductive http_outcome : Type :=
| Responded (status_code : Z) (text : string) (body : option json)
| TimedOut
| Unreachable.

Inductive event : Type :=
| EvTime (t : Q)
| EvSleep (secs : Q)
| EvGet (r : request).

Record World : Type := {
  clock : Q;
  upstream : request -> http_outcome;
  trace : list event
}.

Record state : Type := {
  self : NCBIBridge;
  world : World
}.

(** Computations that may raise and that act on the bridge and the world.
    An exception leaves the state as it was when it was raised. *)
Definition M (A : Type) : Type := state -> result A * state.

Definition ret {A} (a : A) : M A := fun s => (Ok a, s).

Definition raise {A} (e : exn) : M A := fun s => (Raise e, s).

Definition bind {A B} (m : M A) (f : A -> M B) : M B :=
  fun s =>
    match m s with
    | (Ok a, s') => f a s'
    | (Raise e, s') => (Raise e, s')
    end.

Definition lift {A} (r : result A) : M A := fun s => (r, s).

Declare Scope py_scope.
Delimit Scope py_scope with py.
Notation "x <- m ;; k" := (bind m (fun x => k))
  (at level 61, m at next level, right associativity) : py_scope.
Notation "m ;; k" := (bind m (fun _ => k))
  (at level 61, right associativity) : py_scope.
Open Scope py_scope.

Definition log (e : event) (w : World) : World :=
  {| clock := clock w; upstream := upstream w; trace := (trace w ++ [e])%list |}.

(** [time.time()] *)
Definition time_time : M Q :=
  fun s =>
    let t := clock (world s) in
    (Ok t, {| self := self s; world := log (EvTime t) (world s) |}).

(** [time.sleep(secs)]: the clock moves on by [secs]. *)
Definition time_sleep (secs : Q) : M unit :=
  fun s =>
    if Qle_bool 0 secs
    then
      let w := world s in
      (Ok tt,
       {| self := self s;
          world := log (EvSleep secs)
                     {| clock := clock w + secs; upstream := upstream w;
                        trace := trace w |} |})
    else (Raise ValueError, s).

(** [self.session.get(url, params=params, timeout=timeout)] *)
Definition session_get (url : string) (params : dict) (timeout : Q)
  : M (Z * string * option json) :=
  fun s =>
    let r := {| url := url; params := params;
                headers := session_headers (self s);
                req_timeout := timeout |} in
    let s' := {| self := self s; world := log (EvGet r) (world s) |} in
    match upstream (world s) r with
    | Responded status text body => (Ok (status, text, body), s')
    | TimedOut => (Raise Timeout, s')
    | Unreachable => (Raise ConnectionError, s')
    end.

Definition get_config : M Config := fun s => (Ok (config (self s)), s).

Definition get_last_request_time : M Q :=
  fun s => (Ok (last_request_time (self s)), s).

Definition set_last_request_time (t : Q) : M unit :=
  fun s =>
    (Ok tt,
     {| self := {| config := config (self s);
                   session_headers := session_headers (self s);
                   last_request_time := t |};
        world := world s |}).

(** [a < b] on floats *)
Definition Qltb (a b : Q) : bool := negb (Qle_bool b a).

(** ** The bridge ([bridge.py]) *)

(** [NCBIBridge._rate_limit] *)
Definition _rate_limit : M unit :=
  current_time <- time_time ;;
  last <- get_last_request_time ;;
  cfg <- get_config ;;
  let time_since_last := (current_time - last)%Q in
  (if Qltb time_since_last (request_delay cfg)
   then time_sleep (request_delay cfg - time_since_last)
   else ret tt) ;;
  now <- time_time ;;
  set_last_request_time now.

(** Lines 80-87 of [_make_request]: the parameters added to every call. *)
Definition common_params (cfg : Config) : dict :=
  let common_params :=
    [("retmode", JStr "json"); ("tool", JStr "ncbi_gene_mcp_client")] in
  let common_params :=
    match email cfg with
    | Some e => if truthy_opt (Some e)
                then dict_set "email" (JStr e) common_params
                else common_params
    | None => common_params
    end in
  match api_key cfg with
  | Some k => if truthy_opt (Some k)
              then dict_set "api_key" (JStr k) common_params
              else common_params
  | None => common_params
  end.

(** [NCBIBridge._make_request] *)
Definition _make_request (endpoint : string) (params : dict) : M json :=
  _rate_limit ;;
  cfg <- get_config ;;
  let url := base_url cfg ++ "/" ++ endpoint ++ ".fcgi" in
  let params := dict_update params (common_params cfg) in
  response <- session_get url params (timeout cfg) ;;
  let '(status_code, text, body) := response in
  if negb (status_code =? 200)
  then raise (Exception ("NCBI API request failed with status "
                           ++ str_of_Z status_code ++ ": " ++ text))
  else
    match body with
    | Some doc => ret doc
    | None => raise JSONDecodeError
    end.

(** The part of an operation that follows its request touches neither the
    bridge nor the world: it is written on [result] alone. *)
Definition and_then {A B} (r : result A) (f : A -> result B) : result B :=
  match r with
  | Ok a => f a
  | Raise e => Raise e
  end.

Declare Scope result_scope.
Delimit Scope result_scope with result.
Notation "x <- r ;; k" := (and_then r (fun x => k))
  (at level 61, r at next level, right associativity) : result_scope.

Section Bridge.
Context {RT : Runtime}.

(** Lines 117-123 of [search_genes]: from the response to the entity. *)
Definition parse_search (response : json) : result SearchResult.t :=
  (response <- as_dict response ;;
   esearch_result <- as_dict (dict_get "esearchresult" (JDict []) response) ;;
   count <- py_int (dict_get "count" (JInt 0) esearch_result) ;;
   new_SearchResult count
     (dict_get "idlist" (JList []) esearch_result)
     (dict_get "querytranslation" JNull esearch_result))%result.

(** [NCBIBridge.search_genes] *)
Definition search_genes (query : string) (max_results : Z)
  : M SearchResult.t :=
  let params :=
    [("db", JStr "gene"); ("term", JStr query); ("retmax", JInt max_results)] in
  response <- _make_request "esearch" params ;;
  lift (parse_search response).

(** Lines 149-150 of [fetch_gene_info]: the organism name of a record. *)
Definition organism_name (gene_data : dict) : json :=
  let organism := dict_get "organism" (JDict []) gene_data in
  match organism with
  | JDict o => dict_get "scientificname" (JStr "Unknown") o
  | _ => JStr (py_str organism)
  end.

(** Lines 153-159 of [fetch_gene_info]: the list [other_aliases]. *)
Definition collect_aliases (gene_data : dict) : json :=
  let other_aliases := JList [] in
  if dict_mem "otheraliases" gene_data
  then
    let aliases := dict_get "otheraliases" JNull gene_data in
    match aliases with
    | JStr a => JList (map (fun alias => JStr (strip alias)) (split "," a))
    | JList _ => aliases
    | _ => other_aliases
    end
  else other_aliases.

(** Lines 142-171 of [fetch_gene_info]: from the response to the entity. *)
Definition parse_gene (gene_id : string) (response : json)
  : result GeneInfo.t :=
  (response <- as_dict response ;;
   result <- as_dict (dict_get "result" (JDict []) response) ;;
   let gene_data := dict_get gene_id JNull result in
   if negb (truthy gene_data)
   then Raise (Exception ("No data found for gene ID: " ++ gene_id))
   else
     gene_data <- as_dict gene_data ;;
     let organism_name := organism_name gene_data in
     let other_aliases := collect_aliases gene_data in
     new_GeneInfo gene_id
       (dict_get "name" (JStr "") gene_data)
       (dict_get "description" (JStr "") gene_data)
       organism_name
       (dict_get "chromosome" JNull gene_data)
       (dict_get "maplocation" JNull gene_data)
       (dict_get "geneticsource" JNull gene_data)
       (if truthy other_aliases then other_aliases else JNull)
       (dict_get "summary" JNull gene_data))%result.

(** [NCBIBridge.fetch_gene_info] *)
Definition fetch_gene_info (gene_id : string) : M GeneInfo.t :=
  let params := [("db", JStr "gene"); ("id", JStr gene_id)] in
  response <- _make_request "esummary" params ;;
  lift (parse_gene gene_id response).

(** Lines 190-202 of [fetch_protein_info]: from the response to the
    entity. *)
Definition parse_protein (protein_id : string) (response : json)
  : result ProteinInfo.t :=
  (response <- as_dict response ;;
   result <- as_dict (dict_get "result" (JDict []) response) ;;
   let protein_data := dict_get protein_id JNull result in
   if negb (truthy protein_data)
   then Raise (Exception ("No data found for protein ID: " ++ protein_id))
   else
     protein_data <- as_dict protein_data ;;
     new_ProteinInfo protein_id
       (dict_get "title" (JStr "") protein_data)
       (dict_get "organism" (JStr "") protein_data)
       (dict_get "slen" JNull protein_data)
       (dict_get "moltype" JNull protein_data))%result.

(** [NCBIBridge.fetch_protein_info] *)
Definition fetch_protein_info (protein_id : string) : M ProteinInfo.t :=
  let params := [("db", JStr "protein"); ("id", JStr protein_id)] in
  response <- _make_request "esummary" params ;;
  lift (parse_protein protein_id response).

(** The loop of [search_by_gene_symbol]: fetch each id, keep what was
    fetched, go on after any exception. *)
Fixpoint fetch_each (ids : list string) (genes : list GeneInfo.t)
  : M (list GeneInfo.t) :=
  match ids with
  | [] => ret genes
  | gene_id :: rest =>
      fun s =>
        match fetch_gene_info gene_id s with
        | (Ok gene_info, s') => fetch_each rest (genes ++ [gene_info])%list s'
        | (Raise _, s') => fetch_each rest genes s'
        end
  end.

(** Lines 215-217 of [search_by_gene_symbol]: the query it searches for. *)
Definition symbol_query (symbol : string) (organism : option string) : string :=
  let query := symbol ++ "[gene]" in
  match organism with
  | Some o => if truthy_opt (Some o)
              then query ++ " AND " ++ o ++ "[organism]"
              else query
  | None => query
  end.

(** [NCBIBridge.search_by_gene_symbol] *)
Definition search_by_gene_symbol (symbol : string) (organism : option string)
  : M (list GeneInfo.t) :=
  let query := symbol_query symbol organism in
  search_result <- search_genes query 10 ;;
  fetch_each (SearchResult.ids search_result) [].

End Bridge.

(** ** Reading a run *)

(** Time passing between two calls of the bridge. *)
Definition elapse (dt : Q) (s : state) : state :=
  {| self := self s;
     world := {| clock := clock (world s) + dt;
                 upstream := upstream (world s);
                 trace := trace (world s) |} |}.

Definition is_get (e : event) : bool :=
  match e with EvGet _ => true | _ => false end.

Definition is_sleep (e : event) : bool :=
  match e with EvSleep _ => true | _ => false end.

Definition is_time (e : event) : bool :=
  match e with EvTime _ => true | _ => false end.

(** How many times the network was asked. *)
Definition gateway_calls (s : state) : nat :=
  List.length (filter is_get (trace (world s))).

(** The request [_make_request] sends for an endpoint and parameters. *)
Definition request_of (b : NCBIBridge) (endpoint : string) (params : dict)
  : request :=
  {| url := base_url (config b) ++ "/" ++ endpoint ++ ".fcgi";
     params := dict_update params (common_params (config b));
     headers := session_headers b;
     req_timeout := timeout (config b) |}.

(** What [_make_request] makes of the answer to its request. *)
Definition gateway_result (o : http_outcome) : result json :=
  match o with
  | TimedOut => Raise Timeout
  | Unreachable => Raise ConnectionError
  | Responded status_code text body =>
      if negb (status_code =? 200)
      then Raise (Exception ("NCBI API request failed with status "
                               ++ str_of_Z status_code ++ ": " ++ text))
      else match body with
           | Some doc => Ok doc
           | None => Raise JSONDecodeError
           end
  end.

(** The state in which [_rate_limit] returns. *)
Definition acquired (s : state) : state := snd (_rate_limit s).

(** The state in which [_make_request] returns or raises. *)
Definition requested (s : state) (endpoint : string) (params : dict) : state :=
  let s1 := acquired s in
  {| self := self s1;
     world := log (EvGet (request_of (self s) endpoint params)) (world s1) |}.

(** The answer of the upstream service to a call of [_make_request]. *)
Definition answer (s : state) (endpoint : string) (params : dict)
  : result json :=
  gateway_result (upstream (world s) (request_of (self s) endpoint params)).

(** The parameters the operations hand to [_make_request]. *)
Definition search_params (query : string) (max_results : Z) : dict :=
  [("db", JStr "gene"); ("term", JStr query); ("retmax", JInt max_results)].

Definition gene_params (gene_id : string) : dict :=
  [("db", JStr "gene"); ("id", JStr gene_id)].

Definition protein_params (protein_id : string) : dict :=
  [("db", JStr "protein"); ("id", JStr protein_id)].

(** The answer [a] is a document whose results mapping holds [record]
    under [id]; [None] when the mapping has no such key.  A document
    without a results mapping counts as one with an empty mapping, as
    [response.get("result", {})] has it. *)
Definition holds (a : result json) (id : string) (record : option json)
  : Prop :=
  exists response result,
    a = Ok (JDict response)
    /\ dict_get "result" (JDict []) response = JDict result
    /\ dict_lookup id result = record.




Definition with_aliases (g : GeneInfo.t) (a : option (list string))
  : GeneInfo.t :=
  GeneInfo.make (GeneInfo.gene_id g) (GeneInfo.name g)
    (GeneInfo.description g) (GeneInfo.organism g) (GeneInfo.chromosome g)
    (GeneInfo.map_location g) (GeneInfo.gene_type g) a (GeneInfo.summary g).

Definition with_organism (g : GeneInfo.t) (o : string) : GeneInfo.t :=
  GeneInfo.make (GeneInfo.gene_id g) (GeneInfo.name g)
    (GeneInfo.description g) o (GeneInfo.chromosome g)
    (GeneInfo.map_location g) (GeneInfo.gene_type g)
    (GeneInfo.other_aliases g) (GeneInfo.summary g).

Section Reading.
Context {RT : Runtime}.

(** The entity built from a record once its organism name and its aliases
    have been worked out. *)
Definition gene_entity (gene_id : string) (gene_data : dict)
    (organism_name other_aliases : json) : result GeneInfo.t :=
  new_GeneInfo gene_id
    (dict_get "name" (JStr "") gene_data)
    (dict_get "description" (JStr "") gene_data)
    organism_name
    (dict_get "chromosome" JNull gene_data)
    (dict_get "maplocation" JNull gene_data)
    (dict_get "geneticsource" JNull gene_data)
    other_aliases
    (dict_get "summary" JNull gene_data).

(** The argument [other_aliases=...] of the constructor call. *)
Definition aliases_argument (gene_data : dict) : json :=
  let other_aliases := collect_aliases gene_data in
  if truthy other_aliases then other_aliases else JNull.

(** The genes of those ids that [fetch_gene_info] fetches in state [s],
    each id tried on its own, in the order of [ids]. *)
Definition fetched_ok (s : state) (ids : list string) : list GeneInfo.t :=
  flat_map
    (fun gene_id =>
       match fst (fetch_gene_info gene_id s) with
       | Ok gene_info => [gene_info]
       | Raise _ => []
       end)
    ids.

End Reading.

(** The remaining wait, when there is one. *)
Definition remaining (s : state) : Q :=
  (request_delay (config (self s))
   - (clock (world s) - last_request_time (self s)))%Q.

(** [true] when [_rate_limit] has to wait in state [s]. *)
Definition must_wait (s : state) : bool :=
  Qltb (clock (world s) - last_request_time (self s))
       (request_delay (config (self s))).

(** What one run of [_rate_limit] adds to the trace. *)
Definition acquire_events (s : state) : list event :=
  if must_wait s
  then [EvTime (clock (world s)); EvSleep (remaining s);
        EvTime (clock (world s) + remaining s)%Q]
  else [EvTime (clock (world s)); EvTime (clock (world s))].

(** ** Fixtures

    A small upstream service in the shape of NCBI's answers, used for the
    concrete runs below.  No fixture holds a float, so the printer of floats
    is never called. *)

#[global] Instance reference_runtime : Runtime := {|
  float_repr := fun _ => "0.0";
  lax_int_of_str := int_of_string
|}.

Module Fixture.

Definition record_672 : json :=
  JDict [("uid", JStr "672");
         ("name", JStr "BRCA1");
         ("description", JStr "BRCA1 DNA repair associated");
         ("organism", JDict [("scientificname", JStr "Homo sapiens");
                             ("commonname", JStr "human");
                             ("taxid", JInt 9606)]);
         ("chromosome", JStr "17");
         ("maplocation", JStr "17q21.31");
         ("otheraliases", JStr "BRCAI, BRCC1, IRIS, PSCP");
         ("summary", JStr "This gene encodes a nuclear phosphoprotein.")].

Definition record_7157 : json :=
  JDict [("uid", JStr "7157");
         ("name", JStr "TP53");
         ("description", JStr "tumor protein p53");
         ("organism", JStr "Homo sapiens");
         ("chromosome", JStr "17");
         ("otheraliases", JStr "TP53, p53, TRP53")].

(** a record without aliases and with a number where the organism goes *)
Definition record_1 : json :=
  JDict [("uid", JStr "1");
         ("name", JStr "A1BG");
         ("description", JStr "alpha-1-B glycoprotein");
         ("organism", JInt 9606)].

Definition fields_of (record : json) : dict :=
  match record with
  | JDict d => d
  | _ => []
  end.

Definition summaries : dict :=
  [("uids", JList [JStr "672"; JStr "7157"; JStr "1"]);
   ("672", record_672); ("7157", record_7157); ("1", record_1);
   ("0", JDict [])].

Definition search_answer (term : string) : http_outcome :=
  if String.eqb term "BRCA1[gene] AND human[organism]"
  then Responded 200 "{...}"
         (Some (JDict [("header", JDict [("type", JStr "esearch")]);
                       ("esearchresult",
                        JDict [("count", JStr "2");
                               ("retmax", JStr "2");
                               ("idlist", JList [JStr "672"; JStr "675"]);
                               ("querytranslation",
                                JStr "BRCA1[gene] AND human[organism]")])]))
  else if String.eqb term "many"
  then Responded 200 "{...}"
         (Some (JDict [("esearchresult",
                        JDict [("count", JStr "abc");
                               ("idlist", JList [])])]))
  else if String.eqb term "down"
  then Responded 500 "Internal Server Error" None
  else Responded 200 "{...}"
         (Some (JDict [("esearchresult",
                        JDict [("count", JStr "0");
                               ("idlist", JList [])])])).

(** The service: searches by term, summaries by id. *)
Definition service (r : request) : http_outcome :=
  if String.eqb (url r) "https://eutils.ncbi.nlm.nih.gov/entrez/eutils/esearch.fcgi"
  then match dict_lookup "term" (params r) with
       | Some (JStr term) => search_answer term
       | _ => Responded 400 "Bad Request" None
       end
  else match dict_lookup "id" (params r) with
       | Some (JStr "500") => Responded 500 "Internal Server Error" None
       | Some (JStr "slow") => TimedOut
       | _ => Responded 200 "{...}" (Some (JDict [("result", JDict summaries)]))
       end.

(** A fresh bridge with the default configuration, at a wall-clock time
    of 1.7e9 seconds after the epoch. *)
Definition start : state :=
  {| self := NCBIBridge_init None;
     world := {| clock := 1700000000%Q; upstream := service; trace := [] |} |}.

End Fixture.

(** How many times a character occurs in a string. *)
Fixpoint count_char (c : ascii) (s : string) : nat :=
  match s with
  | EmptyString => O
  | String c' s' => (if Ascii.eqb c c' then 1 else 0) + count_char c s'
  end.

(** A bridge configured with an e-mail address and an API key, facing the
    same service. *)
Module Probe.

Definition credentials : Config :=
  {| base_url := "https://eutils.ncbi.nlm.nih.gov/entrez/eutils";
     email := Some "lab@example.org";
     api_key := Some "0123abcd";
     timeout := 60%Q;
     request_delay := 1%Q |}.

Definition start : state :=
  {| self := NCBIBridge_init (Some credentials);
     world := {| clock := 1700000000%Q; upstream := Fixture.service;
                 trace := [] |} |}.

(** A service whose search finds twelve ids, none of which has a record
    except 672 and 7157. *)
Definition twelve : list string :=
  ["672"; "7157"; "11"; "12"; "13"; "14"; "15"; "16"; "17"; "18"; "19"; "20"].

Definition wide_service (r : request) : http_outcome :=
  match dict_lookup "term" (params r) with
  | Some _ =>
      Responded 200 "{...}"
        (Some (JDict [("esearchresult",
                       JDict [("count", JStr "12");
                              ("idlist", JList (map JStr twelve))])]))
  | None => Fixture.service r
  end.

Definition wide : state :=
  {| self := NCBIBridge_init None;
     world := {| clock := 1700000000%Q; upstream := wide_service;
                 trace := [] |} |}.

End Probe.

(** * The standalone bridge of the web deployment ([api/app.py])

    [api/app.py] carries its own [NCBIBridge], written out again without
    the configuration object.  Its [_rate_limit] and [search_genes] read
    like those of [bridge.py]; its [_make_request], [fetch_gene_info] and
    [search_by_gene_symbol] differ. *)

(** [ch.lower()] for code points below 256; the result stays below 256. *)
Definition lower_char (c : ascii) : ascii :=
  let n := nat_of_ascii c in
  if ((65 <=? n) && (n <=? 90)
      || (192 <=? n) && (n <=? 222) && negb (n =? 215))%nat
  then ascii_of_nat (n + 32)
  else c.

(** [s.lower()] *)
Fixpoint lower (s : string) : string :=
  match s with
  | EmptyString => EmptyString
  | String c s' => String (lower_char c) (lower s')
  end.

(** [ch.upper()] for a code point below 256, as the code points of the
    result: the sharp s becomes two letters, and the micro sign and the y
    with diaeresis leave the range. *)
Definition upper_char (c : ascii) : list N :=
  let n := nat_of_ascii c in
  if ((97 <=? n) && (n <=? 122)
      || (224 <=? n) && (n <=? 254) && negb (n =? 247))%nat
  then [N.of_nat (n - 32)]
  else if (n =? 223)%nat then [83%N; 83%N]
  else if (n =? 255)%nat then [376%N]
  else if (n =? 181)%nat then [924%N]
  else [N.of_nat n].

(** [s.upper()], as code points. *)
Fixpoint upper (s : string) : list N :=
  match s with
  | EmptyString => []
  | String c s' => (upper_char c ++ upper s')%list
  end.

Definition points_eqb (a b : list N) : bool :=
  if list_eq_dec N.eq_dec a b then true else false.

Module Api.

Module GeneInfo.
Record t : Type := make {
  gene_id : string;
  name : string;
  description : string;
  organism : string;
  chromosome : option string;
  map_location : option string;
  gene_type : option string;
  other_aliases : list string;
  summary : option string
}.
End GeneInfo.

(** The attributes set by [NCBIBridge.__init__]. *)
Record NCBIBridge : Type := {
  base_url : string;
  last_request_time : Q;
  request_delay : Q
}.

(** [NCBIBridge.__init__] *)
Definition NCBIBridge_init : NCBIBridge :=
  {| base_url := "https://eutils.ncbi.nlm.nih.gov/entrez/eutils";
     last_request_time := 0%Q;
     request_delay := (34 # 100)%Q |}.

Record state : Type := {
  self : NCBIBridge;
  world : World
}.

Definition M (A : Type) : Type := state -> result A * state.

Definition ret {A} (a : A) : M A := fun s => (Ok a, s).

Definition raise {A} (e : exn) : M A := fun s => (Raise e, s).

Definition bind {A B} (m : M A) (f : A -> M B) : M B :=
  fun s =>
    match m s with
    | (Ok a, s') => f a s'
    | (Raise e, s') => (Raise e, s')
    end.

Definition lift {A} (r : result A) : M A := fun s => (r, s).

Declare Scope api_scope.
Delimit Scope api_scope with api.
Notation "x <- m ;; k" := (bind m (fun x => k))
  (at level 61, m at next level, right associativity) : api_scope.
Notation "m ;; k" := (bind m (fun _ => k))
  (at level 61, right associativity) : api_scope.

(** [time.time()] *)
Definition time_time : M Q :=
  fun s =>
    let t := clock (world s) in
    (Ok t, {| self := self s; world := log (EvTime t) (world s) |}).

(** [time.sleep(secs)] *)
Definition time_sleep (secs : Q) : M unit :=
  fun s =>
    if Qle_bool 0 secs
    then
      let w := world s in
      (Ok tt,
       {| self := self s;
          world := log (EvSleep secs)
                     {| clock := clock w + secs; upstream := upstream w;
                        trace := trace w |} |})
    else (Raise ValueError, s).

(** [requests.get(url, params=params, timeout=30)]: no session, so no
    header of the bridge's own. *)
Definition requests_get (url : string) (params : dict) (timeout : Q)
  : M (Z * string * option json) :=
  fun s =>
    let r := {| url := url; params := params; headers := [];
                req_timeout := timeout |} in
    let s' := {| self := self s; world := log (EvGet r) (world s) |} in
    match upstream (world s) r with
    | Responded status text body => (Ok (status, text, body), s')
    | TimedOut => (Raise Timeout, s')
    | Unreachable => (Raise ConnectionError, s')
    end.

Definition get_self : M NCBIBridge := fun s => (Ok (self s), s).

Definition set_last_request_time (t : Q) : M unit :=
  fun s =>
    (Ok tt,
     {| self := {| base_url := base_url (self s);
                   last_request_time := t;
                   request_delay := request_delay (self s) |};
        world := world s |}).

(** [NCBIBridge._rate_limit] *)
Definition _rate_limit : M unit :=
  (current_time <- time_time ;;
   b <- get_self ;;
   let time_since_last := (current_time - last_request_time b)%Q in
   (if Qltb time_since_last (request_delay b)
    then time_sleep (request_delay b - time_since_last)
    else ret tt) ;;
   now <- time_time ;;
   set_last_request_time now)%api.

(** [NCBIBridge._make_request] *)
Definition _make_request (endpoint : string) (params : dict) : M json :=
  (_rate_limit ;;
   b <- get_self ;;
   let url := base_url b ++ "/" ++ endpoint ++ ".fcgi" in
   let common_params :=
     [("retmode", JStr "json"); ("tool", JStr "ncbi_gene_mcp_client")] in
   let params := dict_update params common_params in
   response <- requests_get url params 30%Q ;;
   let '(status_code, text, body) := response in
   if negb (status_code =? 200)
   then raise (Exception ("NCBI API request failed: " ++ str_of_Z status_code))
   else
     match body with
     | Some doc => ret doc
     | None => raise JSONDecodeError
     end)%api.

Section Bridge.
Context {RT : Runtime}.

(** [NCBIBridge.search_genes]; what follows the request is word for word
    what [bridge.py] has, [parse_search]. *)
Definition search_genes (query : string) (max_results : Z)
  : M SearchResult.t :=
  (let params :=
     [("db", JStr "gene"); ("term", JStr query); ("retmax", JInt max_results)] in
   response <- _make_request "esearch" params ;;
   lift (parse_search response))%api.

(** [GeneInfo(gene_id=..., ...)] with [other_aliases: List[str]] *)
Definition new_GeneInfo (gene_id : string)
    (name description organism chromosome map_location gene_type
     other_aliases summary : json) : result GeneInfo.t :=
  match validate_str name, validate_str description, validate_str organism,
        validate_opt_str chromosome, validate_opt_str map_location,
        validate_opt_str gene_type, validate_list_str other_aliases,
        validate_opt_str summary with
  | Ok n, Ok d, Ok o, Ok c, Ok m, Ok g, Ok a, Ok s =>
      Ok (GeneInfo.make gene_id n d o c m g a s)
  | _, _, _, _, _, _, _, _ => Raise ValidationError
  end.

(** Lines 97-99 of [fetch_gene_info]: the list [aliases]. *)
Definition collect_aliases (gene_data : dict) : result json :=
  let aliases := JList [] in
  if dict_mem "otheraliases" gene_data
  then
    let field := dict_get "otheraliases" JNull gene_data in
    if truthy field
    then match field with
         | JStr a => Ok (JList (map JStr (split ", " a)))
         | _ => Raise AttributeError
         end
    else Ok (JList [])
  else Ok aliases.

(** Lines 88-111 of [fetch_gene_info]: from the response to the entity. *)
Definition parse_gene (gene_id : string) (response : json)
  : result GeneInfo.t :=
  (response <- as_dict response ;;
   result <- as_dict (dict_get "result" (JDict []) response) ;;
   let gene_data := dict_get gene_id JNull result in
   if negb (truthy gene_data)
   then Raise (Exception ("No data found for gene ID: " ++ gene_id))
   else
     gene_data <- as_dict gene_data ;;
     let organism_name := organism_name gene_data in
     aliases <- collect_aliases gene_data ;;
     new_GeneInfo gene_id
       (dict_get "name" (JStr "Unknown") gene_data)
       (dict_get "description" (JStr "No description available") gene_data)
       organism_name
       (dict_get "chromosome" JNull gene_data)
       (dict_get "maplocation" JNull gene_data)
       (dict_get "geneticsource" JNull gene_data)
       aliases
       (dict_get "summary" JNull gene_data))%result.

(** [NCBIBridge.fetch_gene_info] *)
Definition fetch_gene_info (gene_id : string) : M GeneInfo.t :=
  (let params := [("db", JStr "gene"); ("id", JStr gene_id)] in
   response <- _make_request "esummary" params ;;
   lift (parse_gene gene_id response))%api.

(** Lines 114-118 of [search_by_gene_symbol]: the query it searches for. *)
Definition symbol_query (symbol : string) (organism : option string) : string :=
  let query := symbol ++ "[gene symbol]" in
  match organism with
  | Some o =>
      if truthy_opt (Some o)
      then
        let o := if String.eqb (lower o) "human" then "Homo sapiens" else o in
        query ++ " AND " ++ o ++ "[organism]"
      else query
  | None => query
  end.

(** The loop of [search_by_gene_symbol]: a gene is kept when it was
    fetched and its name is the symbol up to case. *)
Fixpoint fetch_each (symbol : string) (ids : list string)
    (genes : list GeneInfo.t) : M (list GeneInfo.t) :=
  match ids with
  | [] => ret genes
  | gene_id :: rest =>
      fun s =>
        match fetch_gene_info gene_id s with
        | (Ok gene_info, s') =>
            if points_eqb (upper (GeneInfo.name gene_info)) (upper symbol)
            then fetch_each symbol rest (genes ++ [gene_info])%list s'
            else fetch_each symbol rest genes s'
        | (Raise _, s') => fetch_each symbol rest genes s'
        end
  end.

(** [NCBIBridge.search_by_gene_symbol] *)
Definition search_by_gene_symbol (symbol : string) (organism : option string)
  : M (list GeneInfo.t) :=
  (let query := symbol_query symbol organism in
   search_result <- search_genes query 50 ;;
   fetch_each symbol (firstn 10 (SearchResult.ids search_result)) [])%api.

End Bridge.

(** How many times the network was asked. *)
Definition gateway_calls (s : state) : nat :=
  List.length (filter is_get (trace (world s))).

(** The request [_make_request] sends for an endpoint and parameters. *)
Definition request_of (b : NCBIBridge) (endpoint : string) (given : dict)
  : request :=
  {| url := base_url b ++ "/" ++ endpoint ++ ".fcgi";
     params := dict_update given
                 [("retmode", JStr "json");
                  ("tool", JStr "ncbi_gene_mcp_client")];
     headers := [];
     req_timeout := 30%Q |}.

(** What [_make_request] makes of the answer to its request. *)
Definition gateway_result (o : http_outcome) : result json :=
  match o with
  | TimedOut => Raise Timeout
  | Unreachable => Raise ConnectionError
  | Responded status_code text body =>
      if negb (status_code =? 200)
      then Raise (Exception ("NCBI API request failed: "
                               ++ str_of_Z status_code))
      else match body with
           | Some doc => Ok doc
           | None => Raise JSONDecodeError
           end
  end.

(** The state in which [_rate_limit] returns. *)
Definition acquired (s : state) : state := snd (_rate_limit s).

(** The state in which [_make_request] returns or raises. *)
Definition requested (s : state) (endpoint : string) (given : dict) : state :=
  let s1 := acquired s in
  {| self := self s1;
     world := log (EvGet (request_of (self s) endpoint given)) (world s1) |}.

(** The answer of the upstream service to a call of [_make_request]. *)
Definition answer (s : state) (endpoint : string) (given : dict)
  : result json :=
  gateway_result (upstream (world s) (request_of (self s) endpoint given)).

Section Reading.
Context {RT : Runtime}.

(** The entity built from a record once its aliases have been worked
    out. *)
Definition gene_entity (gene_id : string) (gene_data : dict)
    (aliases : json) : result GeneInfo.t :=
  new_GeneInfo gene_id
    (dict_get "name" (JStr "Unknown") gene_data)
    (dict_get "description" (JStr "No description available") gene_data)
    (organism_name gene_data)
    (dict_get "chromosome" JNull gene_data)
    (dict_get "maplocation" JNull gene_data)
    (dict_get "geneticsource" JNull gene_data)
    aliases
    (dict_get "summary" JNull gene_data).

(** The genes of those ids that [fetch_gene_info] fetches in state [s],
    each id tried on its own, in the order of [ids]. *)
Definition fetched_ok (s : state) (ids : list string) : list GeneInfo.t :=
  flat_map
    (fun gene_id =>
       match fst (fetch_gene_info gene_id s) with
       | Ok gene_info => [gene_info]
       | Raise _ => []
       end)
    ids.

(** The name of the gene is the symbol up to case. *)
Definition named (symbol : string) (g : GeneInfo.t) : bool :=
  points_eqb (upper (GeneInfo.name g)) (upper symbol).

End Reading.

Definition with_aliases (g : GeneInfo.t) (a : list string) : GeneInfo.t :=
  GeneInfo.make (GeneInfo.gene_id g) (GeneInfo.name g)
    (GeneInfo.description g) (GeneInfo.organism g) (GeneInfo.chromosome g)
    (GeneInfo.map_location g) (GeneInfo.gene_type g) a (GeneInfo.summary g).

(** A fresh bridge facing a service. *)
Definition fresh (service : request -> http_outcome) : state :=
  {| self := NCBIBridge_init;
     world := {| clock := 1700000000%Q; upstream := service; trace := [] |} |}.

End Api.

(** A service that knows one gene under three ids: as it is, with its
    name in lower case, and under another name. *)
Module ApiProbe.

Definition gene (name aliases : json) : json :=
  JDict [("name", name);
         ("description", JStr "BRCA1 DNA repair associated");
         ("organism", JDict [("scientificname", JStr "Homo sapiens")]);
         ("chromosome", JStr "17");
         ("otheraliases", aliases)].

Definition summaries : dict :=
  [("672", gene (JStr "BRCA1") (JStr "BRCAI, BRCC1,IRIS"));
   ("673", gene (JStr "brca1") (JStr ""));
   ("674", gene (JStr "BRCA2") (JList [JStr "FAD"]))].

Definition service (r : request) : http_outcome :=
  match dict_lookup "term" (params r) with
  | Some _ =>
      Responded 200 "{...}"
        (Some (JDict [("esearchresult",
                       JDict [("count", JStr "14");
                              ("idlist",
                               JList (map JStr
                                        ["672"; "673"; "674"; "675"; "676";
                                         "677"; "678"; "679"; "680"; "681";
                                         "672"; "672"; "672"; "672"]))])]))
  | None => Responded 200 "{...}" (Some (JDict [("result", JDict summaries)]))
  end.

Definition start : Api.state := Api.fresh service.

End ApiProbe.

(** * The tool server ([mcp_server.py])

    [MCPServer] reads requests line by line, calls the bridge and prints
    one response for each request.  What it prints on standard output is
    kept as the document handed to [json.dumps]; what it prints on
    standard error as the text. *)

(** What the embedding takes from the host without modelling it: the
    decoder [json.loads] ([None] when it raises [JSONDecodeError]) and the
    text of its error, the text [str(e)] of an exception raised by a
    library, and [model_dump_json(indent=2)] of the two entities. *)
Class Host : Type := {
  json_loads : string -> option json;
  decode_error_text : string -> string;
  library_text : exn -> string;
  gene_json : GeneInfo.t -> string;
  protein_json : ProteinInfo.t -> string
}.

(** The newline character. *)
Definition nl : string := String (ascii_of_nat 10) EmptyString.

(** [str(n)] for a length or a position. *)
Definition str_of_nat (n : nat) : string := str_of_Z (Z.of_nat n).

Module Mcp.

Inductive output : Type :=
| Stdout (doc : json)
| Stderr (text : string).

(** The attributes of an [MCPServer], the bridge together with the world
    it acts on, and what has been printed so far. *)
Record MCPServer : Type := {
  bridge : state;
  request_id : json;
  printed : list output
}.

(** [MCPServer.__init__], in a given world. *)
Definition MCPServer_init (w : World) : MCPServer :=
  {| bridge := {| self := NCBIBridge_init None; world := w |};
     request_id := JInt 0;
     printed := [] |}.

Definition print (o : output) (srv : MCPServer) : MCPServer :=
  {| bridge := bridge srv;
     request_id := request_id srv;
     printed := (printed srv ++ [o])%list |}.

Definition with_bridge (b : state) (srv : MCPServer) : MCPServer :=
  {| bridge := b; request_id := request_id srv; printed := printed srv |}.

(** [MCPServer.send_response] *)
Definition send_response (result : json) (error : option string)
    (srv : MCPServer) : MCPServer :=
  let response := [("jsonrpc", JStr "2.0"); ("id", request_id srv)] in
  let response :=
    match error with
    | Some e =>
        if truthy_opt (Some e)
        then dict_set "error"
               (JDict [("code", JInt (-1)); ("message", JStr e)]) response
        else dict_set "result" result response
    | None => dict_set "result" result response
    end in
  print (Stdout (JDict response)) srv.

(** [MCPServer.handle_initialize] *)
Definition handle_initialize (params : json) (srv : MCPServer) : MCPServer :=
  let response :=
    JDict [("protocolVersion", JStr "2024-11-05");
           ("capabilities", JDict [("tools", JDict [])]);
           ("serverInfo", JDict [("name", JStr "ncbi_gene_mcp_client-mcp");
                                 ("version", JStr "0.1.0")])] in
  send_response response None srv.

(** One entry of the list of tools. *)
Definition tool (name description : string) (properties : dict)
    (required : string) : json :=
  JDict [("name", JStr name);
         ("description", JStr description);
         ("inputSchema",
          JDict [("type", JStr "object");
                 ("properties", JDict properties);
                 ("required", JList [JStr required])])].

Definition string_property (description : string) : json :=
  JDict [("type", JStr "string"); ("description", JStr description)].

(** The list [tools] of [handle_list_tools]. *)
Definition tools : json :=
  JList
    [tool "search_genes" "Search for genes in NCBI database using a query"
       [("query", string_property "Search query (gene name, symbol, etc.)");
        ("max_results",
         JDict [("type", JStr "integer");
                ("description",
                 JStr "Maximum number of results to return (default: 20)");
                ("default", JInt 20)])]
       "query";
     tool "fetch_gene_info" "Fetch detailed information for a specific gene ID"
       [("gene_id", string_property "NCBI Gene ID (e.g., '672' for BRCA1)")]
       "gene_id";
     tool "fetch_protein_info"
       "Fetch detailed information for a specific protein ID"
       [("protein_id", string_property "NCBI Protein ID")]
       "protein_id";
     tool "search_by_gene_symbol"
       "Search for genes by symbol with optional organism filter"
       [("symbol", string_property "Gene symbol (e.g., 'BRCA1', 'TP53')");
        ("organism",
         string_property
           "Optional organism filter (e.g., 'human', 'Homo sapiens')")]
       "symbol"].

(** [MCPServer.handle_list_tools] *)
Definition handle_list_tools (srv : MCPServer) : MCPServer :=
  send_response (JDict [("tools", tools)]) None srv.

(** The result of a tool: one piece of text. *)
Definition text_content (text : string) : json :=
  JDict [("content", JList [JDict [("type", JStr "text");
                                   ("text", JStr text)]])].

Section Server.
Context {RT : Runtime} {HO : Host}.

(** [str(e)] *)
Definition exn_text (e : exn) : string :=
  match e with
  | Exception msg => msg
  | _ => library_text e
  end.

(** The server hands the arguments of a tool to the bridge as they come,
    whatever their type.  The operations of the bridge are therefore read
    once more for arguments that are any JSON value; for strings they are
    the operations above. *)

(** [result.get(key)] for any key: a dict decoded from JSON has string
    keys only, and a list or a dict cannot be hashed. *)
Definition any_lookup (key : json) (d : dict) : result json :=
  match key with
  | JStr k => Ok (dict_get k JNull d)
  | JList _ | JDict _ => Raise TypeError
  | _ => Ok JNull
  end.

(** [bridge.search_genes(query, max_results)] *)
Definition search_genes_any (query max_results : json) : M SearchResult.t :=
  (let params :=
     [("db", JStr "gene"); ("term", query); ("retmax", max_results)] in
   response <- _make_request "esearch" params ;;
   lift (parse_search response))%py.

(** [bridge.fetch_gene_info(gene_id)] *)
Definition fetch_gene_info_any (gene_id : json) : M GeneInfo.t :=
  (let params := [("db", JStr "gene"); ("id", gene_id)] in
   response <- _make_request "esummary" params ;;
   lift (response <- as_dict response ;;
         result <- as_dict (dict_get "result" (JDict []) response) ;;
         gene_data <- any_lookup gene_id result ;;
         if negb (truthy gene_data)
         then Raise (Exception ("No data found for gene ID: "
                                  ++ py_str gene_id))
         else
           gene_data <- as_dict gene_data ;;
           gene_id <- validate_str gene_id ;;
           gene_entity gene_id gene_data (organism_name gene_data)
             (aliases_argument gene_data))%result)%py.

(** [bridge.fetch_protein_info(protein_id)] *)
Definition fetch_protein_info_any (protein_id : json) : M ProteinInfo.t :=
  (let params := [("db", JStr "protein"); ("id", protein_id)] in
   response <- _make_request "esummary" params ;;
   lift (response <- as_dict response ;;
         result <- as_dict (dict_get "result" (JDict []) response) ;;
         protein_data <- any_lookup protein_id result ;;
         if negb (truthy protein_data)
         then Raise (Exception ("No data found for protein ID: "
                                  ++ py_str protein_id))
         else
           protein_data <- as_dict protein_data ;;
           protein_id <- validate_str protein_id ;;
           new_ProteinInfo protein_id
             (dict_get "title" (JStr "") protein_data)
             (dict_get "organism" (JStr "") protein_data)
             (dict_get "slen" JNull protein_data)
             (dict_get "moltype" JNull protein_data))%result)%py.

(** [bridge.search_by_gene_symbol(symbol, organism)] *)
Definition search_by_gene_symbol_any (symbol organism : json)
  : M (list GeneInfo.t) :=
  (let query := py_str symbol ++ "[gene]" in
   let query :=
     if truthy organism
     then query ++ " AND " ++ py_str organism ++ "[organism]"
     else query in
   search_result <- search_genes query 10 ;;
   fetch_each (SearchResult.ids search_result) [])%py.

(** The text the tool [search_genes] answers with. *)
Definition search_text (query : json) (r : SearchResult.t) : string :=
  "Found " ++ str_of_Z (SearchResult.count r) ++ " genes matching '"
    ++ py_str query ++ "':" ++ nl ++ nl
    ++ "Gene IDs: " ++ String.concat ", " (firstn 10 (SearchResult.ids r))
    ++ nl ++ nl ++ "Query translation: "
    ++ (if truthy_opt (SearchResult.query_translation r)
        then match SearchResult.query_translation r with
             | Some t => t
             | None => "N/A"
             end
        else "N/A").

(** The lines the tool [search_by_gene_symbol] writes for one gene. *)
Definition gene_lines (i : nat) (gene : GeneInfo.t) : string :=
  str_of_nat i ++ ". " ++ GeneInfo.name gene ++ " (ID: "
    ++ GeneInfo.gene_id gene ++ ")" ++ nl
    ++ "   Description: " ++ GeneInfo.description gene ++ nl
    ++ "   Organism: " ++ GeneInfo.organism gene ++ nl
    ++ (if truthy_opt (GeneInfo.chromosome gene)
        then match GeneInfo.chromosome gene with
             | Some c => "   Chromosome: " ++ c ++ nl
             | None => ""
             end
        else "")
    ++ nl.

(** [for i, gene in enumerate(results, i): ...] *)
Fixpoint genes_lines (i : nat) (results : list GeneInfo.t) : string :=
  match results with
  | [] => ""
  | gene :: rest => gene_lines i gene ++ genes_lines (S i) rest
  end.

(** The text the tool [search_by_gene_symbol] answers with. *)
Definition symbol_text (symbol organism : json) (results : list GeneInfo.t)
  : string :=
  let place :=
    if truthy organism then " in organism '" ++ py_str organism ++ "'"
    else "" in
  match results with
  | [] => "No genes found for symbol '" ++ py_str symbol ++ "'" ++ place
  | _ =>
      "Found " ++ str_of_nat (List.length results)
        ++ " gene(s) for symbol '" ++ py_str symbol ++ "'" ++ place
        ++ ":" ++ nl ++ nl ++ genes_lines 1 results
  end.

(** A call of the bridge inside the [try] of [handle_call_tool]: the
    result goes to [answer], an exception is caught and its text sent as
    the error. *)
Definition call_bridge {A} (op : M A) (answer : A -> string)
    (srv : MCPServer) : MCPServer :=
  match op (bridge srv) with
  | (Ok a, b) => send_response (text_content (answer a)) None (with_bridge b srv)
  | (Raise e, b) => send_response JNull (Some (exn_text e)) (with_bridge b srv)
  end.

(** [raise ValueError(msg)] inside the [try] of [handle_call_tool], caught
    at once by its [except Exception as e]. *)
Definition refuse (msg : string) (srv : MCPServer) : MCPServer :=
  send_response JNull (Some msg) srv.

(** [arguments.get(...)] on arguments that are no dict raises
    [AttributeError] inside the [try]. *)
Definition with_arguments (arguments : json)
    (k : dict -> MCPServer -> MCPServer) (srv : MCPServer) : MCPServer :=
  match arguments with
  | JDict a => k a srv
  | _ => send_response JNull (Some (exn_text AttributeError)) srv
  end.

(** [v == s] for a value and a string *)
Definition is_str (v : json) (s : string) : bool :=
  match v with
  | JStr t => String.eqb t s
  | _ => false
  end.

(** [MCPServer.handle_call_tool] *)
Definition handle_call_tool (params : json) (srv : MCPServer)
  : result unit * MCPServer :=
  match as_dict params with
  | Raise e => (Raise e, srv)
  | Ok params =>
      let name := dict_get "name" JNull params in
      let arguments := dict_get "arguments" (JDict []) params in
      (Ok tt,
       if is_str name "search_genes" then
         with_arguments arguments
           (fun arguments srv =>
              let query := dict_get "query" JNull arguments in
              let max_results := dict_get "max_results" (JInt 20) arguments in
              if negb (truthy query) then refuse "query is required" srv
              else call_bridge (search_genes_any query max_results)
                     (search_text query) srv)
           srv
       else if is_str name "fetch_gene_info" then
         with_arguments arguments
           (fun arguments srv =>
              let gene_id := dict_get "gene_id" JNull arguments in
              if negb (truthy gene_id) then refuse "gene_id is required" srv
              else call_bridge (fetch_gene_info_any gene_id)
                     (fun result =>
                        "Gene Information for ID " ++ py_str gene_id ++ ":"
                          ++ nl ++ nl ++ gene_json result)
                     srv)
           srv
       else if is_str name "fetch_protein_info" then
         with_arguments arguments
           (fun arguments srv =>
              let protein_id := dict_get "protein_id" JNull arguments in
              if negb (truthy protein_id)
              then refuse "protein_id is required" srv
              else call_bridge (fetch_protein_info_any protein_id)
                     (fun result =>
                        "Protein Information for ID " ++ py_str protein_id
                          ++ ":" ++ nl ++ nl ++ protein_json result)
                     srv)
           srv
       else if is_str name "search_by_gene_symbol" then
         with_arguments arguments
           (fun arguments srv =>
              let symbol := dict_get "symbol" JNull arguments in
              let organism := dict_get "organism" JNull arguments in
              if negb (truthy symbol) then refuse "symbol is required" srv
              else call_bridge (search_by_gene_symbol_any symbol organism)
                     (symbol_text symbol organism) srv)
           srv
       else refuse ("Unknown tool: " ++ py_str name) srv)
  end.

(** [MCPServer.handle_request] *)
Definition handle_request (request : json) (srv : MCPServer)
  : result unit * MCPServer :=
  match as_dict request with
  | Raise e => (Raise e, srv)
  | Ok request =>
      let method := dict_get "method" JNull request in
      let params := dict_get "params" (JDict []) request in
      let srv := {| bridge := bridge srv;
                    request_id := dict_get "id" (JInt 0) request;
                    printed := printed srv |} in
      (Ok tt,
       if is_str method "initialize" then handle_initialize params srv
       else if is_str method "tools/list" then handle_list_tools srv
       else if is_str method "tools/call" then
         match handle_call_tool params srv with
         | (Ok _, srv') => srv'
         | (Raise e, srv') => send_response JNull (Some (exn_text e)) srv'
         end
       else send_response JNull (Some ("Unknown method: " ++ py_str method)) srv)
  end.

(** The loop of [MCPServer.run] over the lines of standard input. *)
Fixpoint serve (lines : list string) (srv : MCPServer)
  : result unit * MCPServer :=
  match lines with
  | [] => (Ok tt, srv)
  | line :: rest =>
      let line := strip line in
      if String.eqb line "" then serve rest srv
      else
        match json_loads line with
        | None =>
            serve rest
              (print (Stderr ("Bad JSON from host: " ++ decode_error_text line))
                 srv)
        | Some request =>
            match handle_request request srv with
            | (Ok _, srv') => serve rest srv'
            | (Raise e, srv') => (Raise e, srv')
            end
        end
  end.

(** [MCPServer.run] *)
Definition run (lines : list string) (srv : MCPServer)
  : result unit * MCPServer :=
  serve lines
    (print (Stderr "NCBI Gene MCP Client MCP server ready...") srv).


End Server.

(** The documents printed on standard output. *)
Definition answers (srv : MCPServer) : list json :=
  flat_map (fun o => match o with Stdout d => [d] | Stderr _ => [] end)
    (printed srv).

(** The tools and the argument each of them requires. *)
Definition required_argument : list (string * string) :=
  [("search_genes", "query"); ("fetch_gene_info", "gene_id");
   ("fetch_protein_info", "protein_id"); ("search_by_gene_symbol", "symbol")].

(** The error document for a message, under the current request id. *)
Definition error_doc (id : json) (msg : string) : json :=
  JDict [("jsonrpc", JStr "2.0"); ("id", id);
         ("error", JDict [("code", JInt (-1)); ("message", JStr msg)])].


End Mcp.

(** A host for the concrete runs: it decodes three lines and nothing
    else. *)
#[global] Instance reference_host : Host := {|
  json_loads := fun line =>
    if String.eqb line "[1, 2]" then Some (JList [JInt 1; JInt 2])
    else if String.eqb line "{tools/list 7}"
    then Some (JDict [("jsonrpc", JStr "2.0"); ("id", JInt 7);
                      ("method", JStr "tools/list")])
    else if String.eqb line "{tools/call 8 fetch_gene_info}"
    then Some (JDict [("jsonrpc", JStr "2.0"); ("id", JInt 8);
                      ("method", JStr "tools/call");
                      ("params",
                       JDict [("name", JStr "fetch_gene_info");
                              ("arguments", JDict [("gene_id", JStr "")])])])
    else None;
  decode_error_text := fun _ => "Expecting value";
  library_text := fun _ => "error";
  gene_json := fun _ => "{}";
  protein_json := fun _ => "{}"
|}.

Module McpProbe.

Definition start : Mcp.MCPServer := Mcp.MCPServer_init (world Fixture.start).

End McpProbe.

(** * The web handlers ([web_app.py])

    The handlers call the bridge through the client of [main.py], whose
    methods hand their arguments on to the bridge unchanged. *)

(** How the web framework prints its own exception: [str(e)] for an
    [HTTPException] with a status code and a detail. *)
Class WebHost : Type := {
  http_exception_text : Z -> string -> string
}.

Module Web.

(** What a handler ends with: the document it returns, or the
    [HTTPException] it raises. *)
Inductive reply : Type :=
| Returned (body : json)
| HTTPException (status_code : Z) (detail : string).

Definition opt_str (o : option string) : json :=
  match o with
  | Some s => JStr s
  | None => JNull
  end.

(** [gene.model_dump()] *)
Definition model_dump (g : GeneInfo.t) : json :=
  JDict [("gene_id", JStr (GeneInfo.gene_id g));
         ("name", JStr (GeneInfo.name g));
         ("description", JStr (GeneInfo.description g));
         ("organism", JStr (GeneInfo.organism g));
         ("chromosome", opt_str (GeneInfo.chromosome g));
         ("map_location", opt_str (GeneInfo.map_location g));
         ("gene_type", opt_str (GeneInfo.gene_type g));
         ("other_aliases",
          match GeneInfo.other_aliases g with
          | Some l => JList (map JStr l)
          | None => JNull
          end);
         ("summary", opt_str (GeneInfo.summary g))].

(** What the [try] of a handler can throw: an exception of the bridge,
    or the [HTTPException] the handler raises itself. *)
Inductive thrown : Type :=
| Thrown (e : exn)
| ThrownHTTP (status_code : Z) (detail : string).

Section Handlers.
Context {RT : Runtime} {HO : Host} {WH : WebHost}.

(** [str(e)] in [except Exception as e] *)
Definition thrown_text (t : thrown) : string :=
  match t with
  | Thrown (Exception msg) => msg
  | Thrown e => library_text e
  | ThrownHTTP status_code detail => http_exception_text status_code detail
  end.

(** The [try] of [search_genes_api]; the client is the bridge in [s]. *)
Definition search_genes_try (query : string) (max_results : Z) (s : state)
  : (thrown + json) * state :=
  if negb (truthy (JStr (strip query)))
  then (inl (ThrownHTTP 400 "Query cannot be empty"), s)
  else
    match search_genes query max_results s with
    | (Ok result, s') =>
        (inr (JDict [("success", JBool true);
                     ("data",
                      JDict [("count", JInt (SearchResult.count result));
                             ("ids",
                              JList (map JStr (SearchResult.ids result)));
                             ("query_translation",
                              opt_str (SearchResult.query_translation result));
                             ("query", JStr query)])]), s')
    | (Raise e, s') => (inl (Thrown e), s')
    end.

(** [search_genes_api] *)
Definition search_genes_api (query : string) (max_results : Z) (s : state)
  : reply * state :=
  match search_genes_try query max_results s with
  | (inr body, s') => (Returned body, s')
  | (inl e, s') => (HTTPException 500 ("Search failed: " ++ thrown_text e), s')
  end.

(** [get_gene_info_api] *)
Definition get_gene_info_api (gene_id : string) (s : state) : reply * state :=
  match fetch_gene_info gene_id s with
  | (Ok gene_info, s') =>
      (Returned (JDict [("success", JBool true);
                        ("data", model_dump gene_info)]), s')
  | (Raise e, s') =>
      (HTTPException 500
         ("Failed to fetch gene info: " ++ thrown_text (Thrown e)), s')
  end.

(** The [try] of [search_by_symbol_api] *)
Definition search_by_symbol_try (symbol : string) (organism : option string)
    (s : state) : (thrown + json) * state :=
  if negb (truthy (JStr (strip symbol)))
  then (inl (ThrownHTTP 400 "Gene symbol cannot be empty"), s)
  else
    match search_by_gene_symbol symbol organism s with
    | (Ok genes, s') =>
        (inr (JDict [("success", JBool true);
                     ("data",
                      JDict [("genes", JList (map model_dump genes));
                             ("count", JInt (Z.of_nat (List.length genes)));
                             ("symbol", JStr symbol);
                             ("organism", opt_str organism)])]), s')
    | (Raise e, s') => (inl (Thrown e), s')
    end.

(** [search_by_symbol_api] *)
Definition search_by_symbol_api (symbol : string) (organism : option string)
    (s : state) : reply * state :=
  match search_by_symbol_try symbol organism s with
  | (inr body, s') => (Returned body, s')
  | (inl e, s') =>
      (HTTPException 500 ("Symbol search failed: " ++ thrown_text e), s')
  end.

End Handlers.

(** The status a handler answers with: 200 when it returns. *)
Definition status_of (r : reply) : Z :=
  match r with
  | Returned _ => 200
  | HTTPException status_code _ => status_code
  end.

End Web.

#[global] Instance reference_web_host : WebHost := {|
  http_exception_text := fun status detail => str_of_Z status ++ ": " ++ detail
|}.
(** ** The rate limiter *)

Lemma Qltb_true (a b : Q) : Qltb a b = true <-> (a < b)%Q.
Proof.
  unfold Qltb. rewrite negb_true_iff. split; intros H.
  - apply Qnot_le_lt. intros Hle. apply Qle_bool_iff in Hle. congruence.
  - destruct (Qle_bool b a) eqn:E; [|reflexivity].
    apply Qle_bool_iff in E. exfalso. apply (Qlt_not_le _ _ H E).
Qed.


Lemma rate_limit_waits (s : state) :
  must_wait s = true ->
  _rate_limit s =
    (Ok tt,
     {| self := {| config := config (self s);
                   session_headers := session_headers (self s);
                   last_request_time := (clock (world s) + remaining s)%Q |};
        world := {| clock := (clock (world s) + remaining s)%Q;
                    upstream := upstream (world s);
                    trace := (trace (world s)
                              ++ [EvTime (clock (world s))]
                              ++ [EvSleep (remaining s)]
                              ++ [EvTime (clock (world s) + remaining s)%Q])%list
                 |} |}).
Proof.
  intros Hw. unfold must_wait in Hw.
  assert (Hpos : Qle_bool 0 (remaining s) = true).
  { apply Qle_bool_iff. apply Qltb_true in Hw. unfold remaining. lra. }
  unfold _rate_limit, bind, time_time, get_last_request_time, get_config,
    time_sleep, set_last_request_time, log; simpl.
  rewrite Hw. fold (remaining s). simpl. rewrite Hpos. simpl.
  rewrite <- !app_assoc. reflexivity.
Qed.

Lemma rate_limit_passes (s : state) :
  must_wait s = false ->
  _rate_limit s =
    (Ok tt,
     {| self := {| config := config (self s);
                   session_headers := session_headers (self s);
                   last_request_time := clock (world s) |};
        world := {| clock := clock (world s);
                    upstream := upstream (world s);
                    trace := (trace (world s)
                              ++ [EvTime (clock (world s))]
                              ++ [EvTime (clock (world s))])%list |} |}).
Proof.
  intros Hw. unfold must_wait in Hw.
  unfold _rate_limit, bind, time_time, get_last_request_time, get_config,
    ret, set_last_request_time, log; simpl.
  rewrite Hw. simpl. rewrite <- !app_assoc. reflexivity.
Qed.

(** [_rate_limit] always returns. *)
Lemma rate_limit_returns (s : state) : _rate_limit s = (Ok tt, acquired s).
Proof.
  unfold acquired. destruct (must_wait s) eqn:E.
  - rewrite (rate_limit_waits s E). reflexivity.
  - rewrite (rate_limit_passes s E). reflexivity.
Qed.

Lemma acquired_config (s : state) : config (self (acquired s)) = config (self s).
Proof.
  unfold acquired. destruct (must_wait s) eqn:E.
  - rewrite (rate_limit_waits s E). reflexivity.
  - rewrite (rate_limit_passes s E). reflexivity.
Qed.

Lemma acquired_headers (s : state) :
  session_headers (self (acquired s)) = session_headers (self s).
Proof.
  unfold acquired. destruct (must_wait s) eqn:E.
  - rewrite (rate_limit_waits s E). reflexivity.
  - rewrite (rate_limit_passes s E). reflexivity.
Qed.

Lemma acquired_upstream (s : state) :
  upstream (world (acquired s)) = upstream (world s).
Proof.
  unfold acquired. destruct (must_wait s) eqn:E.
  - rewrite (rate_limit_waits s E). reflexivity.
  - rewrite (rate_limit_passes s E). reflexivity.
Qed.

Lemma acquired_trace (s : state) :
  trace (world (acquired s)) = (trace (world s) ++ acquire_events s)%list.
Proof.
  unfold acquired, acquire_events. destruct (must_wait s) eqn:E.
  - rewrite (rate_limit_waits s E). reflexivity.
  - rewrite (rate_limit_passes s E). reflexivity.
Qed.

Lemma acquire_events_no_get (s : state) : filter is_get (acquire_events s) = [].
Proof. unfold acquire_events. destruct (must_wait s); reflexivity. Qed.

(** ** The gateway *)

(** A call of [_make_request] sends one request, the one [request_of]
    describes, after one run of [_rate_limit], and hands back what
    [gateway_result] makes of the answer. *)
Lemma make_request_run (endpoint : string) (params : dict) (s : state) :
  _make_request endpoint params s
  = (answer s endpoint params, requested s endpoint params).
Proof.
  unfold _make_request, bind at 1. rewrite rate_limit_returns.
  unfold bind, get_config, session_get, answer, requested, request_of.
  rewrite acquired_config, acquired_headers, acquired_upstream.
  destruct (upstream (world s) _) as [status text body| |]; simpl;
    try reflexivity.
  destruct (status =? 200); simpl; [|reflexivity].
  destruct body; reflexivity.
Qed.

Lemma requested_config (s : state) (endpoint : string) (params : dict) :
  config (self (requested s endpoint params)) = config (self s).
Proof. unfold requested; simpl. apply acquired_config. Qed.

Lemma requested_headers (s : state) (endpoint : string) (params : dict) :
  session_headers (self (requested s endpoint params))
  = session_headers (self s).
Proof. unfold requested; simpl. apply acquired_headers. Qed.

Lemma requested_upstream (s : state) (endpoint : string) (params : dict) :
  upstream (world (requested s endpoint params)) = upstream (world s).
Proof. unfold requested; simpl. apply acquired_upstream. Qed.

Lemma requested_trace (s : state) (endpoint : string) (params : dict) :
  trace (world (requested s endpoint params))
  = (trace (world s) ++ acquire_events s
       ++ [EvGet (request_of (self s) endpoint params)])%list.
Proof.
  unfold requested; simpl. rewrite acquired_trace, <- app_assoc. reflexivity.
Qed.

Lemma requested_calls (s : state) (endpoint : string) (params : dict) :
  gateway_calls (requested s endpoint params) = S (gateway_calls s).
Proof.
  unfold gateway_calls. rewrite requested_trace, !filter_app.
  rewrite acquire_events_no_get. simpl. rewrite !length_app. simpl. lia.
Qed.

(** The request depends on the configuration and the headers only. *)
Lemma request_of_stable (b b' : NCBIBridge) (endpoint : string) (params : dict) :
  config b = config b' -> session_headers b = session_headers b' ->
  request_of b endpoint params = request_of b' endpoint params.
Proof. intros Hc Hh. unfold request_of. rewrite Hc, Hh. reflexivity. Qed.

Lemma answer_stable (s s' : state) (endpoint : string) (params : dict) :
  config (self s) = config (self s') ->
  session_headers (self s) = session_headers (self s') ->
  upstream (world s) = upstream (world s') ->
  answer s endpoint params = answer s' endpoint params.
Proof.
  intros Hc Hh Hu. unfold answer.
  rewrite Hu, (request_of_stable _ _ _ _ Hc Hh). reflexivity.
Qed.




(** ** One acquisition for each request (C8) *)

(** C8.  A call of [_make_request] begins with one run of [_rate_limit],
    which always returns and never touches the network, and then sends
    one request: what the call adds to the trace is what that one run
    adds (two readings of the clock, with a sleep between them when it
    has to wait), followed by the one [GET]; the bridge is left as that
    run left it. *)
Theorem make_request_acquires_once (endpoint : string) (params : dict)
    (s : state) :
  let s' := snd (_make_request endpoint params s) in
  _rate_limit s = (Ok tt, acquired s)
  /\ trace (world (acquired s)) = (trace (world s) ++ acquire_events s)%list
  /\ trace (world s')
     = (trace (world (acquired s))
          ++ [EvGet (request_of (self s) endpoint params)])%list
  /\ filter is_get (acquire_events s) = []
  /\ List.length (filter is_time (acquire_events s)) = 2%nat
  /\ (List.length (filter is_sleep (acquire_events s)) <= 1)%nat
  /\ self s' = self (acquired s)
  /\ clock (world s') = clock (world (acquired s))
  /\ gateway_calls s' = S (gateway_calls s).
Proof.
  intros s'. unfold s'. rewrite make_request_run. simpl snd.
  split; [apply rate_limit_returns|].
  split; [apply acquired_trace|].
  split; [reflexivity|].
  split; [apply acquire_events_no_get|].
  split; [unfold acquire_events; destruct (must_wait s); reflexivity|].
  split; [unfold acquire_events; destruct (must_wait s); simpl; lia|].
  split; [reflexivity|].
  split; [reflexivity|].
  apply requested_calls.
Qed.

(** ** Configuration (C9) *)

(** C9, as the code has it.  Building a [Config] never fails and checks
    nothing: every field holds the value passed, or its default when none
    is passed, and the bridge takes the configuration as it is.  The
    defaults, a timeout of 30 and a delay of 0.34 seconds, are within the
    ranges. *)
Theorem config_is_stored_unchecked
    (url mail key : option string) (t d : option Q) :
  exists c,
    new_Config url mail key t d = Ok c
    /\ timeout c = match t with Some x => x | None => 30%Q end
    /\ request_delay c = match d with Some x => x | None => (34 # 100)%Q end
    /\ email c = mail
    /\ api_key c = key
    /\ config (NCBIBridge_init (Some c)) = c
    /\ new_Config None None None None None = Ok default_Config
    /\ config (NCBIBridge_init None) = default_Config
    /\ (0 < timeout default_Config)%Q
    /\ (0 <= request_delay default_Config)%Q.
Proof.
  eexists. split; [reflexivity|]. simpl.
  repeat split; try reflexivity; try (unfold Qlt, Qle; simpl; lia).
Qed.

(** ** [int] reads back what [str] prints *)







(** ** The operations, read through the answer of the service *)

Section Operations.
Context {RT : Runtime}.

Lemma search_genes_run (query : string) (max_results : Z) (s : state) :
  search_genes query max_results s
  = (and_then (answer s "esearch" (search_params query max_results))
       parse_search,
     requested s "esearch" (search_params query max_results)).
Proof.
  unfold search_genes, bind. fold (search_params query max_results).
  rewrite make_request_run.
  destruct (answer s "esearch" (search_params query max_results)); reflexivity.
Qed.

Lemma fetch_gene_info_run (gene_id : string) (s : state) :
  fetch_gene_info gene_id s
  = (and_then (answer s "esummary" (gene_params gene_id)) (parse_gene gene_id),
     requested s "esummary" (gene_params gene_id)).
Proof.
  unfold fetch_gene_info, bind. fold (gene_params gene_id).
  rewrite make_request_run.
  destruct (answer s "esummary" (gene_params gene_id)); reflexivity.
Qed.

Lemma fetch_protein_info_run (protein_id : string) (s : state) :
  fetch_protein_info protein_id s
  = (and_then (answer s "esummary" (protein_params protein_id))
       (parse_protein protein_id),
     requested s "esummary" (protein_params protein_id)).
Proof.
  unfold fetch_protein_info, bind. fold (protein_params protein_id).
  rewrite make_request_run.
  destruct (answer s "esummary" (protein_params protein_id)); reflexivity.
Qed.

(** What a fetch returns does not depend on the clock, on the trace or on
    the time of the last request. *)
Lemma fetch_gene_info_stable (gene_id : string) (s s' : state) :
  config (self s) = config (self s') ->
  session_headers (self s) = session_headers (self s') ->
  upstream (world s) = upstream (world s') ->
  fst (fetch_gene_info gene_id s) = fst (fetch_gene_info gene_id s').
Proof.
  intros Hc Hh Hu. rewrite !fetch_gene_info_run. simpl.
  rewrite (answer_stable s s' _ _ Hc Hh Hu). reflexivity.
Qed.

Lemma fetched_ok_stable (ids : list string) (s s' : state) :
  config (self s) = config (self s') ->
  session_headers (self s) = session_headers (self s') ->
  upstream (world s) = upstream (world s') ->
  fetched_ok s ids = fetched_ok s' ids.
Proof.
  intros Hc Hh Hu. unfold fetched_ok. induction ids as [|i ids IH]; simpl.
  - reflexivity.
  - rewrite (fetch_gene_info_stable i s s' Hc Hh Hu), IH. reflexivity.
Qed.

(** The loop never raises and keeps exactly what was fetched. *)
Lemma fetch_each_run (ids : list string) :
  forall (genes : list GeneInfo.t) (s : state),
    fst (fetch_each ids genes s) = Ok (genes ++ fetched_ok s ids)%list
    /\ config (self (snd (fetch_each ids genes s))) = config (self s)
    /\ (gateway_calls (snd (fetch_each ids genes s))
        = gateway_calls s + List.length ids)%nat.
Proof.
  induction ids as [|i ids IH]; intros genes s; simpl.
  - rewrite app_nil_r, Nat.add_0_r. auto.
  - pose proof (fetch_gene_info_run i s) as Hrun.
    set (s1 := requested s "esummary" (gene_params i)) in *.
    assert (Hst : fetched_ok s1 ids = fetched_ok s ids).
    { apply fetched_ok_stable; unfold s1.
      - apply requested_config.
      - apply requested_headers.
      - apply requested_upstream. }
    assert (Hcalls : gateway_calls s1 = S (gateway_calls s))
      by apply requested_calls.
    assert (Hcfg : config (self s1) = config (self s))
      by apply requested_config.
    rewrite Hrun. simpl fst.
    destruct (and_then (answer s "esummary" (gene_params i)) (parse_gene i))
      as [g|e].
    + destruct (IH (genes ++ [g])%list s1) as (H1 & H2 & H3).
      rewrite H1, H2, H3, Hst, Hcalls, Hcfg, <- app_assoc. simpl.
      repeat split; try reflexivity. lia.
    + destruct (IH genes s1) as (H1 & H2 & H3).
      rewrite H1, H2, H3, Hst, Hcalls, Hcfg. simpl.
      repeat split; try reflexivity. lia.
Qed.

End Operations.

(** ** Argument checks (C1) *)

Section Claims.
Context {RT : Runtime}.

(** C1, as the code has it.  The bridge checks none of its string
    arguments.  Whatever the argument is, the empty and the blank ones
    included, [search_genes], [fetch_gene_info] and [fetch_protein_info]
    ask the network exactly once and [search_by_gene_symbol] at least
    once, and what the first three return is what the answer of the
    service makes them return. *)
Theorem no_argument_is_rejected (s : state) :
  (forall query max_results,
      gateway_calls (snd (search_genes query max_results s))
      = S (gateway_calls s)
      /\ fst (search_genes query max_results s)
         = and_then (answer s "esearch" (search_params query max_results))
             parse_search)
  /\ (forall gene_id,
         gateway_calls (snd (fetch_gene_info gene_id s)) = S (gateway_calls s)
         /\ fst (fetch_gene_info gene_id s)
            = and_then (answer s "esummary" (gene_params gene_id))
                (parse_gene gene_id))
  /\ (forall protein_id,
         gateway_calls (snd (fetch_protein_info protein_id s))
         = S (gateway_calls s)
         /\ fst (fetch_protein_info protein_id s)
            = and_then (answer s "esummary" (protein_params protein_id))
                (parse_protein protein_id))
  /\ (forall symbol organism,
         (S (gateway_calls s)
          <= gateway_calls (snd (search_by_gene_symbol symbol organism s)))%nat).
Proof.
  repeat split.
  - rewrite search_genes_run. apply requested_calls.
  - rewrite search_genes_run. reflexivity.
  - rewrite fetch_gene_info_run. apply requested_calls.
  - rewrite fetch_gene_info_run. reflexivity.
  - rewrite fetch_protein_info_run. apply requested_calls.
  - rewrite fetch_protein_info_run. reflexivity.
  - intros symbol organism. unfold search_by_gene_symbol, bind. cbv zeta.
    rewrite search_genes_run.
    set (q := search_params _ _).
    destruct (and_then (answer s "esearch" q) parse_search) as [sr|e].
    + destruct (fetch_each_run (SearchResult.ids sr) []
                  (requested s "esearch" q)) as (_ & _ & H).
      rewrite H, requested_calls. lia.
    + simpl. rewrite requested_calls. lia.
Qed.

(** ** Partial success of the search by symbol (C4) *)


End Claims.

(** ** Records that are not there (C2, C10) *)

Section Records.
Context {RT : Runtime}.

Lemma parse_gene_record (gene_id : string) (response result : dict) :
  dict_get "result" (JDict []) response = JDict result ->
  parse_gene gene_id (JDict response)
  = let gene_data := dict_get gene_id JNull result in
    if negb (truthy gene_data)
    then Raise (Exception ("No data found for gene ID: " ++ gene_id))
    else and_then (as_dict gene_data)
           (fun gene_data =>
              gene_entity gene_id gene_data (organism_name gene_data)
                (aliases_argument gene_data)).
Proof. intros H. unfold parse_gene. simpl. rewrite H. reflexivity. Qed.

Lemma parse_protein_record (protein_id : string) (response result : dict) :
  dict_get "result" (JDict []) response = JDict result ->
  parse_protein protein_id (JDict response)
  = let protein_data := dict_get protein_id JNull result in
    if negb (truthy protein_data)
    then Raise (Exception ("No data found for protein ID: " ++ protein_id))
    else and_then (as_dict protein_data)
           (fun protein_data =>
              new_ProteinInfo protein_id
                (dict_get "title" (JStr "") protein_data)
                (dict_get "organism" (JStr "") protein_data)
                (dict_get "slen" JNull protein_data)
                (dict_get "moltype" JNull protein_data)).
Proof. intros H. unfold parse_protein. simpl. rewrite H. reflexivity. Qed.

(** A record that is missing or falsy ends [fetch_gene_info] with the
    not-found exception. *)
Lemma gene_not_found (gene_id : string) (s : state) (record : option json) :
  holds (answer s "esummary" (gene_params gene_id)) gene_id record ->
  match record with Some r => truthy r = false | None => True end ->
  fst (fetch_gene_info gene_id s)
  = Raise (Exception ("No data found for gene ID: " ++ gene_id)).
Proof.
  intros (response & result & Ha & Hr & Hl) Hfalsy.
  rewrite fetch_gene_info_run. simpl. rewrite Ha. simpl.
  rewrite (parse_gene_record _ _ _ Hr). unfold dict_get. rewrite Hl.
  destruct record as [r|]; simpl; [rewrite Hfalsy|]; reflexivity.
Qed.

Lemma protein_not_found (protein_id : string) (s : state)
    (record : option json) :
  holds (answer s "esummary" (protein_params protein_id)) protein_id record ->
  match record with Some r => truthy r = false | None => True end ->
  fst (fetch_protein_info protein_id s)
  = Raise (Exception ("No data found for protein ID: " ++ protein_id)).
Proof.
  intros (response & result & Ha & Hr & Hl) Hfalsy.
  rewrite fetch_protein_info_run. simpl. rewrite Ha. simpl.
  rewrite (parse_protein_record _ _ _ Hr). unfold dict_get. rewrite Hl.
  destruct record as [r|]; simpl; [rewrite Hfalsy|]; reflexivity.
Qed.

(** A record that is there and truthy is turned into an entity. *)
Lemma gene_found (gene_id : string) (s : state) (gene_data : dict) :
  holds (answer s "esummary" (gene_params gene_id)) gene_id
    (Some (JDict gene_data)) ->
  gene_data <> [] ->
  fst (fetch_gene_info gene_id s)
  = gene_entity gene_id gene_data (organism_name gene_data)
      (aliases_argument gene_data).
Proof.
  intros (response & result & Ha & Hr & Hl) Hne.
  rewrite fetch_gene_info_run. simpl. rewrite Ha. simpl.
  rewrite (parse_gene_record _ _ _ Hr). unfold dict_get at 1. rewrite Hl.
  destruct gene_data; [congruence|]. reflexivity.
Qed.

Lemma bad_status_raises (endpoint : string) (params : dict) (s : state)
    (status : Z) (text : string) (body : option json) :
  upstream (world s) (request_of (self s) endpoint params)
  = Responded status text body ->
  status <> 200 ->
  answer s endpoint params
  = Raise (Exception ("NCBI API request failed with status "
                        ++ str_of_Z status ++ ": " ++ text)).
Proof.
  intros Hu Hs. unfold answer. rewrite Hu. simpl.
  apply Z.eqb_neq in Hs. rewrite Hs. reflexivity.
Qed.

(** C2, as the code has it.  When the results mapping of the answer has
    no entry for the requested id, [fetch_gene_info] and
    [fetch_protein_info] raise a bare [Exception] whose message is
    "No data found for gene ID: " (or "protein ID: ") followed by the id.
    A status other than 200 raises a bare [Exception] as well: the two
    are of one class and only their messages tell them apart.  A timeout
    and an undecodable body raise exceptions of other classes. *)
Theorem absent_record_raises_plain_exception (id : string) (s : state) :
  (holds (answer s "esummary" (gene_params id)) id None ->
   fst (fetch_gene_info id s)
   = Raise (Exception ("No data found for gene ID: " ++ id)))
  /\ (holds (answer s "esummary" (protein_params id)) id None ->
      fst (fetch_protein_info id s)
      = Raise (Exception ("No data found for protein ID: " ++ id)))
  /\ (forall status text body,
         upstream (world s) (request_of (self s) "esummary" (gene_params id))
         = Responded status text body ->
         status <> 200 ->
         exists msg,
           fst (fetch_gene_info id s) = Raise (Exception msg)
           /\ class_of (Exception msg)
              = class_of (Exception ("No data found for gene ID: " ++ id))
           /\ msg <> "No data found for gene ID: " ++ id)
  /\ (upstream (world s) (request_of (self s) "esummary" (gene_params id))
      = TimedOut ->
      fst (fetch_gene_info id s) = Raise Timeout
      /\ class_of Timeout
         <> class_of (Exception ("No data found for gene ID: " ++ id)))
  /\ (forall text,
         upstream (world s) (request_of (self s) "esummary" (gene_params id))
         = Responded 200 text None ->
         fst (fetch_gene_info id s) = Raise JSONDecodeError
         /\ class_of JSONDecodeError
            <> class_of (Exception ("No data found for gene ID: " ++ id))).
Proof.
  split; [|split; [|split; [|split]]].
  - intros H. apply (gene_not_found id s None H I).
  - intros H. apply (protein_not_found id s None H I).
  - intros status text body Hu Hs.
    eexists. rewrite fetch_gene_info_run. simpl.
    rewrite (bad_status_raises _ _ _ _ _ _ Hu Hs). simpl.
    repeat split. discriminate.
  - intros Hu. rewrite fetch_gene_info_run. simpl. unfold answer.
    rewrite Hu. simpl. split; [reflexivity|discriminate].
  - intros text Hu. rewrite fetch_gene_info_run. simpl. unfold answer.
    rewrite Hu. simpl. split; [reflexivity|discriminate].
Qed.

(** C10.  A record that is present under the requested id but falsy (an
    empty object, an empty string, null, zero, an empty list, false) is
    treated like a missing one: [fetch_gene_info] and [fetch_protein_info]
    raise the not-found exception and build no entity. *)
Theorem falsy_record_is_not_found (id : string) (s : state) (record : json) :
  truthy record = false ->
  (holds (answer s "esummary" (gene_params id)) id (Some record) ->
   fst (fetch_gene_info id s)
   = Raise (Exception ("No data found for gene ID: " ++ id)))
  /\ (holds (answer s "esummary" (protein_params id)) id (Some record) ->
      fst (fetch_protein_info id s)
      = Raise (Exception ("No data found for protein ID: " ++ id))).
Proof.
  intros Hf. split; intros H.
  - apply (gene_not_found id s (Some record) H Hf).
  - apply (protein_not_found id s (Some record) H Hf).
Qed.

End Records.

(** ** Aliases and organism of a gene (C3, C6) *)

Section Fields.
Context {RT : Runtime}.

Lemma validate_strs_map (ss : list string) :
  validate_strs (map JStr ss) = Ok ss.
Proof. induction ss as [|x ss IH]; simpl; [|rewrite IH]; reflexivity. Qed.

Lemma split_aux_not_nil (sep s : string) :
  forall skip, split_aux sep s skip <> [].
Proof.
  induction s as [|c s IH]; intros skip; cbn [split_aux].
  - discriminate.
  - destruct skip; [|apply IH].
    destruct (String.prefix sep (String c s)); [discriminate|].
    specialize (IH 0%nat). destruct (split_aux sep s 0); simpl; discriminate.
Qed.

Lemma entity_with_aliases (gene_id : string) (gene_data : dict)
    (organism : json) (aliases : list json) (ss : list string)
    (g0 : GeneInfo.t) :
  gene_entity gene_id gene_data organism JNull = Ok g0 ->
  validate_strs aliases = Ok ss ->
  gene_entity gene_id gene_data organism (JList aliases)
  = Ok (with_aliases g0 (Some ss)).
Proof.
  unfold gene_entity, new_GeneInfo. intros H Hv. simpl in *. rewrite Hv.
  repeat match goal with
         | H : match ?x with _ => _ end = _ |- _ => destruct x; try discriminate
         end.
  injection H as <-. reflexivity.
Qed.

Lemma entity_without_aliases (gene_id : string) (gene_data : dict)
    (organism : json) (g0 : GeneInfo.t) :
  gene_entity gene_id gene_data organism JNull = Ok g0 ->
  g0 = with_aliases g0 None.
Proof.
  unfold gene_entity, new_GeneInfo. intros H. simpl in *.
  repeat match goal with
         | H : match ?x with _ => _ end = _ |- _ => destruct x; try discriminate
         end.
  injection H as <-. reflexivity.
Qed.

Lemma entity_with_organism (gene_id : string) (gene_data : dict)
    (aliases : json) (o : string) (g0 : GeneInfo.t) :
  gene_entity gene_id gene_data (JStr "") aliases = Ok g0 ->
  gene_entity gene_id gene_data (JStr o) aliases = Ok (with_organism g0 o).
Proof.
  unfold gene_entity, new_GeneInfo. intros H. simpl in *.
  repeat match goal with
         | H : match ?x with _ => _ end = _ |- _ => destruct x; try discriminate
         end.
  injection H as <-. reflexivity.
Qed.

Lemma aliases_of_string (gene_data : dict) (a : string) :
  dict_lookup "otheraliases" gene_data = Some (JStr a) ->
  aliases_argument gene_data = JList (map JStr (map strip (split "," a))).
Proof.
  intros H. unfold aliases_argument, collect_aliases, dict_mem, dict_get.
  rewrite H. rewrite map_map. unfold split.
  pose proof (split_aux_not_nil "," a 0) as Hne.
  destruct (split_aux "," a 0); [congruence|]. reflexivity.
Qed.

(** C3, as the code has it.  Take a record that is there and whose other
    fields fit the entity.  A non-empty comma-joined string of aliases
    is split at the commas and each piece trimmed, so that
    "TP53, p53, TRP53" gives TP53, p53 and TRP53; a non-empty sequence of
    strings passes through unchanged; and when the field is absent, null
    or an empty sequence, [other_aliases] is [None], not an empty
    sequence. *)
Theorem aliases_of_a_gene (gene_id : string) (s : state) (gene_data : dict)
    (g0 : GeneInfo.t) :
  holds (answer s "esummary" (gene_params gene_id)) gene_id
    (Some (JDict gene_data)) ->
  gene_data <> [] ->
  gene_entity gene_id gene_data (organism_name gene_data) JNull = Ok g0 ->
  (dict_lookup "otheraliases" gene_data = Some (JStr "TP53, p53, TRP53") ->
   fst (fetch_gene_info gene_id s)
   = Ok (with_aliases g0 (Some ["TP53"; "p53"; "TRP53"])))
  /\ (forall a,
         a <> "" ->
         dict_lookup "otheraliases" gene_data = Some (JStr a) ->
         fst (fetch_gene_info gene_id s)
         = Ok (with_aliases g0 (Some (map strip (split "," a)))))
  /\ (forall ss,
         ss <> [] ->
         dict_lookup "otheraliases" gene_data = Some (JList (map JStr ss)) ->
         fst (fetch_gene_info gene_id s) = Ok (with_aliases g0 (Some ss)))
  /\ (dict_lookup "otheraliases" gene_data = None
      \/ dict_lookup "otheraliases" gene_data = Some JNull
      \/ dict_lookup "otheraliases" gene_data = Some (JList []) ->
      fst (fetch_gene_info gene_id s) = Ok (with_aliases g0 None)
      /\ GeneInfo.other_aliases (with_aliases g0 None) <> Some []).
Proof.
  intros Hh Hne Hg0. rewrite (gene_found gene_id s gene_data Hh Hne).
  assert (Hstr : forall a,
             dict_lookup "otheraliases" gene_data = Some (JStr a) ->
             gene_entity gene_id gene_data (organism_name gene_data)
               (aliases_argument gene_data)
             = Ok (with_aliases g0 (Some (map strip (split "," a))))).
  { intros a Ha. rewrite (aliases_of_string gene_data a Ha).
    apply entity_with_aliases; [exact Hg0|apply validate_strs_map]. }
  split; [|split; [|split]].
  - intros Ha. rewrite (Hstr _ Ha). reflexivity.
  - intros a _ Ha. apply (Hstr a Ha).
  - intros ss Hss Ha.
    unfold aliases_argument, collect_aliases, dict_mem, dict_get. rewrite Ha.
    destruct ss as [|x ss]; [congruence|]. simpl truthy. cbv iota.
    apply entity_with_aliases; [exact Hg0|apply validate_strs_map].
  - intros Ha. split; [|discriminate].
    assert (Harg : aliases_argument gene_data = JNull).
    { unfold aliases_argument, collect_aliases, dict_mem, dict_get.
      destruct Ha as [Ha|[Ha|Ha]]; rewrite Ha; reflexivity. }
    rewrite Harg, Hg0. f_equal.
    apply (entity_without_aliases _ _ _ _ Hg0).
Qed.

(** C6, as the code has it.  Take a record that is there and whose other
    fields fit the entity.  An organism that is an object gives its
    scientific name, as in "Homo sapiens", and "Unknown" when the
    object has no such field; an organism that is a string is taken as it
    is; an absent organism gives "Unknown"; and any other value is
    printed with [str], so that null gives "None" and the number 9606
    gives "9606". *)
Theorem organism_of_a_gene (gene_id : string) (s : state) (gene_data : dict)
    (g0 : GeneInfo.t) :
  holds (answer s "esummary" (gene_params gene_id)) gene_id
    (Some (JDict gene_data)) ->
  gene_data <> [] ->
  gene_entity gene_id gene_data (JStr "") (aliases_argument gene_data)
  = Ok g0 ->
  (forall o name,
      dict_lookup "organism" gene_data = Some (JDict o) ->
      dict_lookup "scientificname" o = Some (JStr name) ->
      fst (fetch_gene_info gene_id s) = Ok (with_organism g0 name))
  /\ (forall o,
         dict_lookup "organism" gene_data = Some (JDict o) ->
         dict_lookup "scientificname" o = None ->
         fst (fetch_gene_info gene_id s) = Ok (with_organism g0 "Unknown"))
  /\ (forall name,
         dict_lookup "organism" gene_data = Some (JStr name) ->
         fst (fetch_gene_info gene_id s) = Ok (with_organism g0 name))
  /\ (dict_lookup "organism" gene_data = None ->
      fst (fetch_gene_info gene_id s) = Ok (with_organism g0 "Unknown"))
  /\ (forall v,
         dict_lookup "organism" gene_data = Some v ->
         (forall o, v <> JDict o) ->
         fst (fetch_gene_info gene_id s) = Ok (with_organism g0 (py_str v)))
  /\ py_str JNull = "None" /\ py_str (JInt 9606) = "9606".
Proof.
  intros Hh Hne Hg0. rewrite (gene_found gene_id s gene_data Hh Hne).
  split; [|split; [|split; [|split; [|split]]]].
  - intros o name Ho Hn. unfold organism_name, dict_get. rewrite Ho, Hn.
    apply entity_with_organism. exact Hg0.
  - intros o Ho Hn. unfold organism_name, dict_get. rewrite Ho, Hn.
    apply entity_with_organism. exact Hg0.
  - intros name Ho. unfold organism_name, dict_get. rewrite Ho.
    apply entity_with_organism. exact Hg0.
  - intros Ho. unfold organism_name, dict_get. rewrite Ho. simpl.
    apply entity_with_organism. exact Hg0.
  - intros v Ho Hv. unfold organism_name, dict_get. rewrite Ho.
    destruct v; try (apply entity_with_organism; exact Hg0).
    exfalso. apply (Hv d). reflexivity.
  - split; reflexivity.
Qed.

End Fields.

(** ** The result of a search (C5) *)

Section Search.
Context {RT : Runtime}.




End Search.

(** On the fixture service the empty query is sent like any other: the
    call returns a result and the network has been asked once. *)
Lemma empty_query_reaches_the_network :
  fst (search_genes "" 20 Fixture.start)
  = Ok (SearchResult.make 0 [] None)
  /\ gateway_calls (snd (search_genes "" 20 Fixture.start)) = 1%nat
  /\ fst (fetch_gene_info " " Fixture.start)
     = Raise (Exception "No data found for gene ID:  ")
  /\ gateway_calls (snd (fetch_gene_info " " Fixture.start)) = 1%nat.
Proof. vm_compute. repeat split; reflexivity. Qed.

(** On the fixture service the missing gene 675 and the failing status
    500 end [fetch_gene_info] with exceptions of one and the same class. *)
Lemma not_found_has_the_class_of_bad_status :
  exists e1 e2,
    fst (fetch_gene_info "675" Fixture.start) = Raise e1
    /\ holds (answer Fixture.start "esummary" (gene_params "675")) "675" None
    /\ fst (fetch_gene_info "500" Fixture.start) = Raise e2
    /\ (exists text body,
           Fixture.service
             (request_of (self Fixture.start) "esummary" (gene_params "500"))
           = Responded 500 text body)
    /\ class_of e1 = class_of e2.
Proof.
  exists (Exception "No data found for gene ID: 675").
  exists (Exception
            "NCBI API request failed with status 500: Internal Server Error").
  split; [vm_compute; reflexivity|].
  split.
  { exists [("result", JDict Fixture.summaries)], Fixture.summaries.
    repeat split; vm_compute; reflexivity. }
  split; [vm_compute; reflexivity|].
  split; [|reflexivity].
  exists "Internal Server Error", None. vm_compute. reflexivity.
Qed.

Lemma absent_record_raises_plain_exception_witness :
  fst (fetch_gene_info "675" Fixture.start)
  = Raise (Exception "No data found for gene ID: 675")
  /\ fst (fetch_protein_info "675" Fixture.start)
     = Raise (Exception "No data found for protein ID: 675")
  /\ exists msg,
       fst (fetch_gene_info "500" Fixture.start) = Raise (Exception msg)
       /\ msg <> "No data found for gene ID: 500".
Proof.
  destruct (absent_record_raises_plain_exception "675" Fixture.start)
    as (Hg & Hp & _).
  destruct (absent_record_raises_plain_exception "500" Fixture.start)
    as (_ & _ & Hs & _).
  split; [|split].
  - apply Hg. exists [("result", JDict Fixture.summaries)], Fixture.summaries.
    repeat split; vm_compute; reflexivity.
  - apply Hp. exists [("result", JDict Fixture.summaries)], Fixture.summaries.
    repeat split; vm_compute; reflexivity.
  - destruct (Hs 500 "Internal Server Error" None) as (msg & H1 & _ & H3).
    + vm_compute. reflexivity.
    + lia.
    + exists msg. split; assumption.
Defined.

Lemma falsy_record_is_not_found_witness :
  truthy (JDict []) = false
  /\ fst (fetch_gene_info "0" Fixture.start)
     = Raise (Exception "No data found for gene ID: 0")
  /\ fst (fetch_protein_info "0" Fixture.start)
     = Raise (Exception "No data found for protein ID: 0").
Proof.
  destruct (falsy_record_is_not_found "0" Fixture.start (JDict []) eq_refl)
    as (Hg & Hp).
  split; [reflexivity|]. split.
  - apply Hg. exists [("result", JDict Fixture.summaries)], Fixture.summaries.
    repeat split; vm_compute; reflexivity.
  - apply Hp. exists [("result", JDict Fixture.summaries)], Fixture.summaries.
    repeat split; vm_compute; reflexivity.
Defined.


(** On the fixture service gene 1 has no aliases field and is fetched: its
    [other_aliases] is [None], not the empty sequence. *)
Lemma absent_aliases_are_null :
  dict_lookup "otheraliases" (Fixture.fields_of Fixture.record_1) = None
  /\ holds (answer Fixture.start "esummary" (gene_params "1")) "1"
       (Some Fixture.record_1)
  /\ exists g,
       fst (fetch_gene_info "1" Fixture.start) = Ok g
       /\ GeneInfo.other_aliases g = None
       /\ GeneInfo.other_aliases g <> Some [].
Proof.
  split; [reflexivity|]. split.
  - exists [("result", JDict Fixture.summaries)], Fixture.summaries.
    repeat split; vm_compute; reflexivity.
  - eexists. split; [vm_compute; reflexivity|]. split; [reflexivity|].
    discriminate.
Qed.

Lemma aliases_of_a_gene_witness :
  fst (fetch_gene_info "7157" Fixture.start)
  = Ok (GeneInfo.make "7157" "TP53" "tumor protein p53" "Homo sapiens"
          (Some "17") None None (Some ["TP53"; "p53"; "TRP53"]) None).
Proof.
  destruct (aliases_of_a_gene "7157" Fixture.start
              (Fixture.fields_of Fixture.record_7157)
              (GeneInfo.make "7157" "TP53" "tumor protein p53" "Homo sapiens"
                 (Some "17") None None None None)) as (H & _).
  - exists [("result", JDict Fixture.summaries)], Fixture.summaries.
    repeat split; vm_compute; reflexivity.
  - discriminate.
  - vm_compute. reflexivity.
  - rewrite H; reflexivity.
Defined.

(** On the fixture service gene 1 carries the number 9606 as its organism
    and is fetched: its organism is "9606", not "Unknown". *)
Lemma malformed_organism_is_printed :
  dict_lookup "organism" (Fixture.fields_of Fixture.record_1)
  = Some (JInt 9606)
  /\ holds (answer Fixture.start "esummary" (gene_params "1")) "1"
       (Some Fixture.record_1)
  /\ exists g,
       fst (fetch_gene_info "1" Fixture.start) = Ok g
       /\ GeneInfo.organism g = "9606"
       /\ GeneInfo.organism g <> "Unknown".
Proof.
  split; [reflexivity|]. split.
  - exists [("result", JDict Fixture.summaries)], Fixture.summaries.
    repeat split; vm_compute; reflexivity.
  - eexists. split; [vm_compute; reflexivity|]. split; [reflexivity|].
    discriminate.
Qed.

Lemma organism_of_a_gene_witness :
  fst (fetch_gene_info "672" Fixture.start)
  = Ok (GeneInfo.make "672" "BRCA1" "BRCA1 DNA repair associated"
          "Homo sapiens" (Some "17") (Some "17q21.31") None
          (Some ["BRCAI"; "BRCC1"; "IRIS"; "PSCP"])
          (Some "This gene encodes a nuclear phosphoprotein.")).
Proof.
  destruct (organism_of_a_gene "672" Fixture.start
              (Fixture.fields_of Fixture.record_672)
              (GeneInfo.make "672" "BRCA1" "BRCA1 DNA repair associated"
                 "" (Some "17") (Some "17q21.31") None
                 (Some ["BRCAI"; "BRCC1"; "IRIS"; "PSCP"])
                 (Some "This gene encodes a nuclear phosphoprotein.")))
    as (H & _).
  - exists [("result", JDict Fixture.summaries)], Fixture.summaries.
    repeat split; vm_compute; reflexivity.
  - discriminate.
  - vm_compute. reflexivity.
  - rewrite (H [("scientificname", JStr "Homo sapiens");
               ("commonname", JStr "human"); ("taxid", JInt 9606)]
               "Homo sapiens"); reflexivity.
Defined.



(** A configuration with a timeout of zero and a negative delay is built
    without complaint, and a bridge is built on it. *)
Lemma bad_config_is_accepted :
  exists c,
    new_Config None None None (Some 0%Q) (Some (-1)%Q) = Ok c
    /\ timeout (config (NCBIBridge_init (Some c))) = 0%Q
    /\ request_delay (config (NCBIBridge_init (Some c))) = (-1)%Q
    /\ ~ (0 < timeout c)%Q
    /\ ~ (0 <= request_delay c)%Q.
Proof.
  eexists. split; [reflexivity|]. simpl.
  repeat split; unfold Qlt, Qle; simpl; lia.
Qed.


(** * Further properties of the bridge *)

(** ** Dictionaries: what [d[k] = v] and [d.update] leave behind *)

Lemma dict_lookup_set_same (k : string) (v : json) (d : dict) :
  dict_lookup k (dict_set k v d) = Some v.
Proof.
  induction d as [|[k' v'] d IH]; simpl.
  - rewrite String.eqb_refl. reflexivity.
  - destruct (String.eqb k k') eqn:E; simpl; rewrite E; [reflexivity|exact IH].
Qed.

Lemma dict_lookup_set_other (k k' : string) (v : json) (d : dict) :
  k <> k' ->
  dict_lookup k' (dict_set k v d) = dict_lookup k' d.
Proof.
  intros Hne. induction d as [|[k0 v0] d IH]; simpl.
  - destruct (String.eqb k' k) eqn:E; [|reflexivity].
    apply String.eqb_eq in E. congruence.
  - destruct (String.eqb k k0) eqn:E; simpl.
    + apply String.eqb_eq in E. subst k0.
      destruct (String.eqb k' k) eqn:E'; [|reflexivity].
      apply String.eqb_eq in E'. congruence.
    + rewrite IH. reflexivity.
Qed.

(** After [d.update(other)] a key of [other] has the value [other] gives
    it last, and any other key has the value it had in [d]. *)
Lemma dict_lookup_update (k : string) (other : dict) :
  forall d,
    dict_lookup k (dict_update d other)
    = match dict_lookup k (rev other) with
      | Some v => Some v
      | None => dict_lookup k d
      end.
Proof.
  unfold dict_update.
  induction other as [|[k0 v0] other IH]; intros d; simpl.
  - reflexivity.
  - rewrite IH. clear IH.
    assert (Hrev : dict_lookup k (rev other ++ [(k0, v0)])%list
                   = match dict_lookup k (rev other) with
                     | Some v => Some v
                     | None => if String.eqb k k0 then Some v0 else None
                     end).
    { induction (rev other) as [|[k1 v1] l IHl]; simpl.
      - reflexivity.
      - destruct (String.eqb k k1); [reflexivity|exact IHl]. }
    rewrite Hrev. destruct (dict_lookup k (rev other)); [reflexivity|].
    destruct (String.eqb k k0) eqn:E.
    + apply String.eqb_eq in E. subst k0. apply dict_lookup_set_same.
    + apply dict_lookup_set_other. intros ->.
      rewrite String.eqb_refl in E. discriminate.
Qed.

(** ** What a request carries *)

Lemma common_params_lookup (cfg : Config) (k : string) :
  dict_lookup k (rev (common_params cfg))
  = if String.eqb k "api_key"
    then match api_key cfg with
         | Some key => if String.eqb key "" then None else Some (JStr key)
         | None => None
         end
    else if String.eqb k "email"
    then match email cfg with
         | Some e => if String.eqb e "" then None else Some (JStr e)
         | None => None
         end
    else if String.eqb k "tool" then Some (JStr "ncbi_gene_mcp_client")
    else if String.eqb k "retmode" then Some (JStr "json")
    else None.
Proof.
  unfold common_params.
  destruct (email cfg) as [e|], (api_key cfg) as [key|]; simpl;
    try destruct (String.eqb e ""); try destruct (String.eqb key ""); simpl;
    (destruct (String.eqb k "api_key") eqn:E1;
     [apply String.eqb_eq in E1; subst k; reflexivity|]);
    (destruct (String.eqb k "email") eqn:E2;
     [apply String.eqb_eq in E2; subst k; reflexivity|]);
    reflexivity.
Qed.

(** X1.  Every request of [_make_request] goes to the endpoint under the base
    address with the configured timeout, and asks for JSON under the
    name of the tool, whatever the caller put under [retmode] and [tool];
    the caller's other parameters are sent as given. *)
Theorem request_parameters (endpoint : string) (given : dict) (s : state) :
  exists r,
    trace (world (snd (_make_request endpoint given s)))
    = (trace (world (acquired s)) ++ [EvGet r])%list
    /\ url r = base_url (config (self s)) ++ "/" ++ endpoint ++ ".fcgi"
    /\ req_timeout r = timeout (config (self s))
    /\ dict_lookup "retmode" (params r) = Some (JStr "json")
    /\ dict_lookup "tool" (params r) = Some (JStr "ncbi_gene_mcp_client")
    /\ forall k,
         k <> "retmode" -> k <> "tool" -> k <> "email" -> k <> "api_key" ->
         dict_lookup k (params r) = dict_lookup k given.
Proof.
  exists (request_of (self s) endpoint given).
  rewrite make_request_run. simpl snd.
  split; [reflexivity|]. split; [reflexivity|]. split; [reflexivity|].
  unfold request_of; cbn [params].
  split; [|split].
  - rewrite dict_lookup_update, common_params_lookup. reflexivity.
  - rewrite dict_lookup_update, common_params_lookup. reflexivity.
  - intros k H1 H2 H3 H4.
    rewrite dict_lookup_update, common_params_lookup.
    apply String.eqb_neq in H1, H2, H3, H4. rewrite H1, H2, H3, H4.
    reflexivity.
Qed.

(** X2.  An e-mail address and an API key that are configured and not empty
    travel with every request as the parameters [email] and [api_key],
    and the address also as a header of the session; when one is not
    configured or empty, the bridge adds no such parameter and the
    caller's own, if any, goes out. *)
Theorem request_credentials (endpoint : string) (given : dict) (s : state) :
  let cfg := config (self s) in
  exists r,
    trace (world (snd (_make_request endpoint given s)))
    = (trace (world (acquired s)) ++ [EvGet r])%list
    /\ (forall e,
           email cfg = Some e -> e <> "" ->
           dict_lookup "email" (params r) = Some (JStr e))
    /\ (email cfg = None \/ email cfg = Some "" ->
        dict_lookup "email" (params r) = dict_lookup "email" given)
    /\ (forall key,
           api_key cfg = Some key -> key <> "" ->
           dict_lookup "api_key" (params r) = Some (JStr key))
    /\ (api_key cfg = None \/ api_key cfg = Some "" ->
        dict_lookup "api_key" (params r) = dict_lookup "api_key" given)
    /\ (forall c e,
           email c = Some e -> e <> "" ->
           session_headers (NCBIBridge_init (Some c))
           = [("User-Agent", "NCBI-Gene-MCP-Client/1.0"); ("email", e)])
    /\ (forall c,
           email c = None \/ email c = Some "" ->
           session_headers (NCBIBridge_init (Some c))
           = [("User-Agent", "NCBI-Gene-MCP-Client/1.0")]).
Proof.
  intros cfg. exists (request_of (self s) endpoint given).
  rewrite make_request_run. simpl snd.
  split; [reflexivity|].
  unfold request_of; cbn [params]. fold cfg.
  split; [|split; [|split; [|split; [|split]]]].
  - intros e He Hne. rewrite dict_lookup_update, common_params_lookup, He.
    apply String.eqb_neq in Hne. rewrite Hne. reflexivity.
  - intros H. rewrite dict_lookup_update, common_params_lookup.
    destruct H as [H|H]; rewrite H; reflexivity.
  - intros key Hk Hne. rewrite dict_lookup_update, common_params_lookup, Hk.
    apply String.eqb_neq in Hne. rewrite Hne. reflexivity.
  - intros H. rewrite dict_lookup_update, common_params_lookup.
    destruct H as [H|H]; rewrite H; reflexivity.
  - intros c e He Hne. unfold NCBIBridge_init. rewrite He.
    apply String.eqb_neq in Hne. rewrite Hne. reflexivity.
  - intros c H. unfold NCBIBridge_init.
    destruct H as [H|H]; rewrite H; reflexivity.
Qed.

Lemma request_credentials_witness :
  exists r,
    trace (world (snd (_make_request "esearch" [("email", JStr "x")]
                         Probe.start)))
    = (trace (world (acquired Probe.start)) ++ [EvGet r])%list
    /\ dict_lookup "email" (params r) = Some (JStr "lab@example.org")
    /\ dict_lookup "api_key" (params r) = Some (JStr "0123abcd")
    /\ session_headers (self Probe.start)
       = [("User-Agent", "NCBI-Gene-MCP-Client/1.0");
          ("email", "lab@example.org")].
Proof.
  destruct (request_credentials "esearch" [("email", JStr "x")] Probe.start)
    as (r & Ht & He & _ & Hk & _ & Hh & _).
  exists r. split; [exact Ht|]. split; [|split].
  - apply He; [reflexivity|discriminate].
  - apply Hk; [reflexivity|discriminate].
  - apply (Hh Probe.credentials); [reflexivity|discriminate].
Defined.

Lemma request_parameters_witness :
  exists r,
    trace (world (snd (_make_request "esummary"
                         [("retmode", JStr "xml"); ("id", JStr "672")]
                         Fixture.start)))
    = (trace (world (acquired Fixture.start)) ++ [EvGet r])%list
    /\ dict_lookup "retmode" (params r) = Some (JStr "json")
    /\ dict_lookup "id" (params r) = Some (JStr "672").
Proof.
  destruct (request_parameters "esummary"
              [("retmode", JStr "xml"); ("id", JStr "672")] Fixture.start)
    as (r & Ht & _ & _ & Hm & _ & Hk).
  exists r. split; [exact Ht|]. split; [exact Hm|].
  rewrite Hk; [reflexivity|discriminate..].
Defined.

(** ** What the gateway hands back *)

(** X3.  [_make_request] hands back a document exactly when the service
    answers with status 200 and a body that is JSON, and the document is
    that body. *)
Theorem gateway_returns_the_decoded_body (endpoint : string) (given : dict)
    (s : state) (doc : json) :
  fst (_make_request endpoint given s) = Ok doc
  <-> exists text,
        upstream (world s) (request_of (self s) endpoint given)
        = Responded 200 text (Some doc).
Proof.
  rewrite make_request_run. simpl fst. unfold answer.
  destruct (upstream (world s) (request_of (self s) endpoint given))
    as [status text body| |]; simpl.
  - destruct (status =? 200) eqn:E; simpl.
    + apply Z.eqb_eq in E. subst status. destruct body as [b|].
      * split.
        -- intros H. injection H as <-. exists text. reflexivity.
        -- intros (t & H). injection H as _ <-. reflexivity.
      * split; [discriminate|]. intros (t & H). discriminate.
    + split; [discriminate|]. intros (t & H). injection H as -> _ _.
      discriminate.
  - split; [discriminate|]. intros (t & H). discriminate.
  - split; [discriminate|]. intros (t & H). discriminate.
Qed.

(** ** The waits of the rate limiter *)



(** ** More on the fetches *)

Section Fetches.
Context {RT : Runtime}.

Lemma new_GeneInfo_id (gene_id : string)
    (n d o c m t a u : json) (g : GeneInfo.t) :
  new_GeneInfo gene_id n d o c m t a u = Ok g -> GeneInfo.gene_id g = gene_id.
Proof.
  unfold new_GeneInfo. intros H.
  repeat match goal with
         | H : match ?x with _ => _ end = _ |- _ => destruct x; try discriminate
         end.
  injection H as <-. reflexivity.
Qed.

Lemma new_ProteinInfo_id (protein_id : string) (t o l m : json)
    (p : ProteinInfo.t) :
  new_ProteinInfo protein_id t o l m = Ok p ->
  ProteinInfo.protein_id p = protein_id.
Proof.
  unfold new_ProteinInfo. intros H.
  repeat match goal with
         | H : match ?x with _ => _ end = _ |- _ => destruct x; try discriminate
         end.
  injection H as <-. reflexivity.
Qed.

(** The loop and the search by symbol leave the configuration, the
    headers and the service as they are. *)
Lemma fetch_each_frame (ids : list string) :
  forall (genes : list GeneInfo.t) (s : state),
    config (self (snd (fetch_each ids genes s))) = config (self s)
    /\ session_headers (self (snd (fetch_each ids genes s)))
       = session_headers (self s)
    /\ upstream (world (snd (fetch_each ids genes s))) = upstream (world s).
Proof.
  induction ids as [|i ids IH]; intros genes s; simpl; [auto|].
  rewrite (fetch_gene_info_run i s).
  destruct (and_then (answer s "esummary" (gene_params i)) (parse_gene i))
    as [g|e].
  - destruct (IH (genes ++ [g])%list (requested s "esummary" (gene_params i)))
      as (H1 & H2 & H3).
    rewrite H1, H2, H3, requested_config, requested_headers,
      requested_upstream. auto.
  - destruct (IH genes (requested s "esummary" (gene_params i)))
      as (H1 & H2 & H3).
    rewrite H1, H2, H3, requested_config, requested_headers,
      requested_upstream. auto.
Qed.

Lemma search_by_gene_symbol_frame (symbol : string) (organism : option string)
    (s : state) :
  config (self (snd (search_by_gene_symbol symbol organism s)))
  = config (self s)
  /\ session_headers (self (snd (search_by_gene_symbol symbol organism s)))
     = session_headers (self s)
  /\ upstream (world (snd (search_by_gene_symbol symbol organism s)))
     = upstream (world s).
Proof.
  unfold search_by_gene_symbol, bind. cbv zeta. rewrite search_genes_run.
  set (q := search_params _ _).
  destruct (and_then (answer s "esearch" q) parse_search) as [sr|e].
  - destruct (fetch_each_frame (SearchResult.ids sr) []
                (requested s "esearch" q)) as (H1 & H2 & H3).
    rewrite H1, H2, H3, requested_config, requested_headers,
      requested_upstream. auto.
  - cbn [snd]. rewrite requested_config, requested_headers, requested_upstream.
    auto.
Qed.

(** X5.  The entity a fetch returns carries the id that was asked for, not an
    id read from the record. *)
Theorem entity_carries_the_requested_id (id : string) (s : state) :
  (forall g, fst (fetch_gene_info id s) = Ok g -> GeneInfo.gene_id g = id)
  /\ (forall p,
         fst (fetch_protein_info id s) = Ok p ->
         ProteinInfo.protein_id p = id).
Proof.
  split.
  - intros g. rewrite fetch_gene_info_run. simpl fst.
    destruct (answer s "esummary" (gene_params id)) as [doc|e];
      [|discriminate].
    unfold and_then, parse_gene.
    destruct (as_dict doc) as [response|]; [|discriminate]. simpl.
    destruct (as_dict (dict_get "result" (JDict []) response)) as [result|];
      [|discriminate]; simpl.
    destruct (negb (truthy (dict_get id JNull result))); [discriminate|].
    destruct (as_dict (dict_get id JNull result)) as [gene_data|];
      [|discriminate]; simpl.
    apply new_GeneInfo_id.
  - intros p. rewrite fetch_protein_info_run. simpl fst.
    destruct (answer s "esummary" (protein_params id)) as [doc|e];
      [|discriminate].
    unfold and_then, parse_protein.
    destruct (as_dict doc) as [response|]; [|discriminate]. simpl.
    destruct (as_dict (dict_get "result" (JDict []) response)) as [result|];
      [|discriminate]; simpl.
    destruct (negb (truthy (dict_get id JNull result))); [discriminate|].
    destruct (as_dict (dict_get id JNull result)) as [protein_data|];
      [|discriminate]; simpl.
    apply new_ProteinInfo_id.
Qed.

(** X6.  What a fetch or a search returns depends on the configuration and on
    the service only: asked again, after any other call of the bridge or
    after any time, it returns the same. *)
Theorem results_do_not_depend_on_history (id : string) (s : state) :
  fst (fetch_gene_info id (snd (fetch_gene_info id s)))
  = fst (fetch_gene_info id s)
  /\ (forall other,
         fst (fetch_gene_info id (snd (fetch_protein_info other s)))
         = fst (fetch_gene_info id s))
  /\ (forall symbol organism,
         fst (fetch_gene_info id (snd (search_by_gene_symbol symbol organism s)))
         = fst (fetch_gene_info id s))
  /\ (forall dt,
         fst (fetch_gene_info id (elapse dt s)) = fst (fetch_gene_info id s))
  /\ (forall query n,
         fst (search_genes query n (snd (search_genes query n s)))
         = fst (search_genes query n s)).
Proof.
  split; [|split; [|split; [|split]]].
  - assert (Hs : snd (fetch_gene_info id s)
                 = requested s "esummary" (gene_params id))
      by (rewrite fetch_gene_info_run; reflexivity).
    rewrite Hs.
    apply fetch_gene_info_stable;
      [apply requested_config|apply requested_headers|apply requested_upstream].
  - intros other. rewrite (fetch_protein_info_run other s). simpl snd.
    apply fetch_gene_info_stable;
      [apply requested_config|apply requested_headers|apply requested_upstream].
  - intros symbol organism.
    destruct (search_by_gene_symbol_frame symbol organism s) as (H1 & H2 & H3).
    apply fetch_gene_info_stable; assumption.
  - intros dt. apply fetch_gene_info_stable; reflexivity.
  - intros query n.
    rewrite (search_genes_run query n (snd (search_genes query n s))).
    rewrite (search_genes_run query n s). simpl.
    rewrite (answer_stable (requested s "esearch" (search_params query n)) s);
      [reflexivity|apply requested_config|apply requested_headers
      |apply requested_upstream].
Qed.

(** X7.  A truthy record that is no object (a list, a string, a number) makes
    the fetch raise [AttributeError], not the not-found exception: such
    is the list NCBI puts under "uids". *)
Theorem non_object_record_raises_attribute_error (id : string) (s : state)
    (record : json) :
  truthy record = true ->
  (forall d, record <> JDict d) ->
  (holds (answer s "esummary" (gene_params id)) id (Some record) ->
   fst (fetch_gene_info id s) = Raise AttributeError)
  /\ (holds (answer s "esummary" (protein_params id)) id (Some record) ->
      fst (fetch_protein_info id s) = Raise AttributeError).
Proof.
  intros Ht Hd. split; intros (response & result & Ha & Hr & Hl).
  - rewrite fetch_gene_info_run. simpl. rewrite Ha. simpl.
    rewrite (parse_gene_record _ _ _ Hr). unfold dict_get. rewrite Hl.
    cbv zeta. rewrite Ht. simpl.
    destruct record; try reflexivity. exfalso. apply (Hd d). reflexivity.
  - rewrite fetch_protein_info_run. simpl. rewrite Ha. simpl.
    rewrite (parse_protein_record _ _ _ Hr). unfold dict_get. rewrite Hl.
    cbv zeta. rewrite Ht. simpl.
    destruct record; try reflexivity. exfalso. apply (Hd d). reflexivity.
Qed.

End Fetches.

Lemma entity_carries_the_requested_id_witness :
  exists g,
    fst (fetch_gene_info "7157" Fixture.start) = Ok g
    /\ GeneInfo.gene_id g = "7157".
Proof.
  destruct (fst (fetch_gene_info "7157" Fixture.start)) as [g|e] eqn:E;
    [|vm_compute in E; discriminate].
  exists g. split; [reflexivity|].
  apply (proj1 (entity_carries_the_requested_id "7157" Fixture.start) g E).
Defined.

Lemma non_object_record_raises_attribute_error_witness :
  fst (fetch_gene_info "uids" Fixture.start) = Raise AttributeError
  /\ fst (fetch_protein_info "uids" Fixture.start) = Raise AttributeError.
Proof.
  destruct (non_object_record_raises_attribute_error "uids" Fixture.start
              (JList [JStr "672"; JStr "7157"; JStr "1"]))
    as (Hg & Hp); [reflexivity|discriminate|].
  split; [apply Hg|apply Hp];
    exists [("result", JDict Fixture.summaries)], Fixture.summaries;
    repeat split; vm_compute; reflexivity.
Defined.

(** ** What a search by symbol costs *)

Section Cost.
Context {RT : Runtime}.

Lemma fetched_ok_length (s : state) (ids : list string) :
  (List.length (fetched_ok s ids) <= List.length ids)%nat.
Proof.
  unfold fetched_ok. induction ids as [|i ids IH]; simpl; [lia|].
  rewrite length_app.
  destruct (fst (fetch_gene_info i s)); simpl; lia.
Qed.



(** X8.  A search by symbol that finds [n] ids asks the network [n + 1] times,
    once for the search and once for every id, however many ids the
    service returns, and returns at most [n] genes; a search that fails
    asks once. *)
Theorem symbol_search_asks_once_per_id
    (symbol : string) (organism : option string) (s : state) :
  let query := symbol_query symbol organism in
  (forall sr s1,
      search_genes query 10 s = (Ok sr, s1) ->
      gateway_calls (snd (search_by_gene_symbol symbol organism s))
      = (gateway_calls s + 1 + List.length (SearchResult.ids sr))%nat
      /\ exists genes,
           fst (search_by_gene_symbol symbol organism s) = Ok genes
           /\ (List.length genes <= List.length (SearchResult.ids sr))%nat)
  /\ (forall e s1,
         search_genes query 10 s = (Raise e, s1) ->
         gateway_calls (snd (search_by_gene_symbol symbol organism s))
         = (gateway_calls s + 1)%nat).
Proof.
  intros query. split.
  - intros sr s1 H. unfold search_by_gene_symbol, bind. cbv zeta. fold query.
    rewrite H.
    destruct (fetch_each_run (SearchResult.ids sr) [] s1) as (H1 & _ & H3).
    rewrite H3, H1. rewrite search_genes_run in H. injection H as _ <-.
    rewrite requested_calls. split; [lia|].
    eexists. split; [reflexivity|]. simpl. apply fetched_ok_length.
  - intros e s1 H. unfold search_by_gene_symbol, bind. cbv zeta. fold query.
    rewrite H. cbn [snd]. rewrite search_genes_run in H. injection H as _ <-.
    rewrite requested_calls. lia.
Qed.


End Cost.

Lemma wide_search :
  fst (search_genes (symbol_query "BRCA1" None) 10 Probe.wide)
  = Ok (SearchResult.make 12 Probe.twelve None).
Proof. vm_compute. reflexivity. Qed.

Lemma symbol_search_asks_once_per_id_witness :
  gateway_calls (snd (search_by_gene_symbol "BRCA1" None Probe.wide))
  = 13%nat.
Proof.
  destruct (symbol_search_asks_once_per_id "BRCA1" None Probe.wide)
    as (H & _).
  destruct (H (SearchResult.make 12 Probe.twelve None)
              (snd (search_genes (symbol_query "BRCA1" None) 10 Probe.wide)))
    as (Hc & _).
  - rewrite <- wide_search. apply surjective_pairing.
  - rewrite Hc. reflexivity.
Defined.


(** ** Splitting and trimming the aliases *)

Lemma push_head_length (c : ascii) (l : list string) :
  l <> [] -> List.length (push_head c l) = List.length l.
Proof. destruct l; [congruence|reflexivity]. Qed.

(** [s.split(",")] has one piece more than [s] has commas. *)
Lemma split_comma_length (s : string) :
  List.length (split "," s) = S (count_char "," s).
Proof.
  unfold split. induction s as [|c s IH]; [reflexivity|].
  cbn [split_aux count_char String.prefix String.length Nat.sub].
  assert (Hp : String.prefix "" s = true) by (destruct s; reflexivity).
  destruct (ascii_dec "," c) as [<-|Hne].
  - rewrite Hp, Ascii.eqb_refl. cbn [List.length]. rewrite IH. reflexivity.
  - apply Ascii.eqb_neq in Hne. rewrite Hne.
    rewrite push_head_length by apply split_aux_not_nil.
    rewrite IH. reflexivity.
Qed.

Lemma rstrip_idempotent (s : string) : rstrip (rstrip s) = rstrip s.
Proof.
  induction s as [|c s IH]; [reflexivity|].
  cbn [rstrip].
  destruct (is_space c && String.eqb (rstrip s) "") eqn:E; [reflexivity|].
  cbn [rstrip]. rewrite IH, E. reflexivity.
Qed.

Lemma lstrip_head (s : string) :
  match lstrip s with
  | EmptyString => True
  | String c _ => is_space c = false
  end.
Proof.
  induction s as [|c s IH]; [exact I|].
  cbn [lstrip]. destruct (is_space c) eqn:E; [exact IH|exact E].
Qed.

(** [s.strip()] is already stripped. *)
Lemma strip_idempotent (s : string) : strip (strip s) = strip s.
Proof.
  unfold strip. pose proof (lstrip_head s) as Hh.
  destruct (lstrip s) as [|c t]; [reflexivity|].
  cbn [rstrip]. rewrite Hh. cbn [andb lstrip]. rewrite Hh.
  cbn [rstrip]. rewrite rstrip_idempotent, Hh. reflexivity.
Qed.

Section Aliases.
Context {RT : Runtime}.

(** X10.  When the aliases of a record are a string, [other_aliases] is never
    [None] and never empty: it has one entry more than the string has
    commas, so one empty entry for the empty string, and every entry is
    free of white space at both ends. *)
Theorem aliases_of_a_string (gene_id : string) (s : state) (gene_data : dict)
    (g0 : GeneInfo.t) (a : string) :
  holds (answer s "esummary" (gene_params gene_id)) gene_id
    (Some (JDict gene_data)) ->
  gene_entity gene_id gene_data (organism_name gene_data) JNull = Ok g0 ->
  dict_lookup "otheraliases" gene_data = Some (JStr a) ->
  exists l,
    fst (fetch_gene_info gene_id s) = Ok (with_aliases g0 (Some l))
    /\ List.length l = S (count_char "," a)
    /\ (forall x, In x l -> strip x = x)
    /\ (a = "" -> l = [""]).
Proof.
  intros Hh Hg0 Ha.
  assert (Hne : gene_data <> []).
  { intros ->. discriminate. }
  exists (map strip (split "," a)).
  rewrite (gene_found gene_id s gene_data Hh Hne).
  rewrite (aliases_of_string gene_data a Ha).
  split; [|split; [|split]].
  - apply entity_with_aliases; [exact Hg0|apply validate_strs_map].
  - rewrite length_map. apply split_comma_length.
  - intros x Hin. apply in_map_iff in Hin. destruct Hin as (y & <- & _).
    apply strip_idempotent.
  - intros ->. reflexivity.
Qed.

End Aliases.

Lemma aliases_of_a_string_witness :
  exists l,
    fst (fetch_gene_info "672" Fixture.start)
    = Ok (GeneInfo.make "672" "BRCA1" "BRCA1 DNA repair associated"
            "Homo sapiens" (Some "17") (Some "17q21.31") None (Some l)
            (Some "This gene encodes a nuclear phosphoprotein."))
    /\ List.length l = 4%nat.
Proof.
  destruct (aliases_of_a_string "672" Fixture.start
              (Fixture.fields_of Fixture.record_672)
              (GeneInfo.make "672" "BRCA1" "BRCA1 DNA repair associated"
                 "Homo sapiens" (Some "17") (Some "17q21.31") None None
                 (Some "This gene encodes a nuclear phosphoprotein."))
              "BRCAI, BRCC1, IRIS, PSCP")
    as (l & Hf & Hl & _).
  - exists [("result", JDict Fixture.summaries)], Fixture.summaries.
    repeat split; vm_compute; reflexivity.
  - vm_compute. reflexivity.
  - reflexivity.
  - exists l. split; [exact Hf|exact Hl].
Defined.

(** * The standalone bridge of [api/app.py] *)

Lemma api_rate_limit_returns (s : Api.state) :
  Api._rate_limit s = (Ok tt, Api.acquired s)
  /\ Api.base_url (Api.self (Api.acquired s)) = Api.base_url (Api.self s)
  /\ upstream (Api.world (Api.acquired s)) = upstream (Api.world s)
  /\ exists events,
       trace (Api.world (Api.acquired s))
       = (trace (Api.world s) ++ events)%list
       /\ filter is_get events = [].
Proof.
  unfold Api.acquired, Api._rate_limit, Api.bind, Api.time_time, Api.get_self,
    Api.time_sleep, Api.ret, Api.set_last_request_time, log; simpl.
  destruct (Qltb (clock (Api.world s) - Api.last_request_time (Api.self s))
              (Api.request_delay (Api.self s))) eqn:E.
  - assert (Hpos : Qle_bool 0
                     (Api.request_delay (Api.self s)
                      - (clock (Api.world s)
                         - Api.last_request_time (Api.self s))) = true).
    { apply Qle_bool_iff. apply Qltb_true in E. lra. }
    rewrite Hpos. simpl. repeat split.
    eexists. rewrite <- !app_assoc. split; reflexivity.
  - simpl. repeat split.
    eexists. rewrite <- !app_assoc. split; reflexivity.
Qed.

Lemma api_make_request_run (endpoint : string) (given : dict) (s : Api.state) :
  Api._make_request endpoint given s
  = (Api.answer s endpoint given, Api.requested s endpoint given).
Proof.
  destruct (api_rate_limit_returns s) as (Hr & Hb & Hu & _).
  unfold Api._make_request, Api.bind at 1. rewrite Hr.
  unfold Api.bind, Api.get_self, Api.requests_get, Api.answer, Api.requested,
    Api.request_of.
  rewrite Hb, Hu.
  destruct (upstream (Api.world s) _) as [status text body| |]; simpl;
    try reflexivity.
  destruct (status =? 200); simpl; [|reflexivity].
  destruct body; reflexivity.
Qed.

Lemma api_requested_frame (s : Api.state) (endpoint : string) (given : dict) :
  Api.base_url (Api.self (Api.requested s endpoint given))
  = Api.base_url (Api.self s)
  /\ upstream (Api.world (Api.requested s endpoint given))
     = upstream (Api.world s)
  /\ Api.gateway_calls (Api.requested s endpoint given)
     = S (Api.gateway_calls s).
Proof.
  destruct (api_rate_limit_returns s) as (_ & Hb & Hu & events & Ht & Hg).
  unfold Api.requested, Api.gateway_calls; simpl.
  split; [exact Hb|]. split; [exact Hu|].
  rewrite Ht, !filter_app, Hg. simpl. rewrite !length_app. simpl. lia.
Qed.

Lemma api_answer_stable (s s' : Api.state) (endpoint : string) (given : dict) :
  Api.base_url (Api.self s) = Api.base_url (Api.self s') ->
  upstream (Api.world s) = upstream (Api.world s') ->
  Api.answer s endpoint given = Api.answer s' endpoint given.
Proof.
  intros Hb Hu. unfold Api.answer, Api.request_of. rewrite Hb, Hu.
  reflexivity.
Qed.

Section ApiRuns.
Context {RT : Runtime}.

Lemma api_search_genes_run (query : string) (max_results : Z) (s : Api.state) :
  Api.search_genes query max_results s
  = (and_then (Api.answer s "esearch" (search_params query max_results))
       parse_search,
     Api.requested s "esearch" (search_params query max_results)).
Proof.
  unfold Api.search_genes, Api.bind. fold (search_params query max_results).
  rewrite api_make_request_run.
  destruct (Api.answer s "esearch" (search_params query max_results));
    reflexivity.
Qed.

Lemma api_fetch_gene_info_run (gene_id : string) (s : Api.state) :
  Api.fetch_gene_info gene_id s
  = (and_then (Api.answer s "esummary" (gene_params gene_id))
       (Api.parse_gene gene_id),
     Api.requested s "esummary" (gene_params gene_id)).
Proof.
  unfold Api.fetch_gene_info, Api.bind. fold (gene_params gene_id).
  rewrite api_make_request_run.
  destruct (Api.answer s "esummary" (gene_params gene_id)); reflexivity.
Qed.

Lemma api_fetch_gene_info_stable (gene_id : string) (s s' : Api.state) :
  Api.base_url (Api.self s) = Api.base_url (Api.self s') ->
  upstream (Api.world s) = upstream (Api.world s') ->
  fst (Api.fetch_gene_info gene_id s) = fst (Api.fetch_gene_info gene_id s').
Proof.
  intros Hb Hu. rewrite !api_fetch_gene_info_run. simpl.
  rewrite (api_answer_stable s s' _ _ Hb Hu). reflexivity.
Qed.

Lemma api_fetched_ok_stable (ids : list string) (s s' : Api.state) :
  Api.base_url (Api.self s) = Api.base_url (Api.self s') ->
  upstream (Api.world s) = upstream (Api.world s') ->
  Api.fetched_ok s ids = Api.fetched_ok s' ids.
Proof.
  intros Hb Hu. unfold Api.fetched_ok. induction ids as [|i ids IH]; simpl.
  - reflexivity.
  - rewrite (api_fetch_gene_info_stable i s s' Hb Hu), IH. reflexivity.
Qed.

Lemma api_fetched_ok_cons (s : Api.state) (i : string) (ids : list string) :
  Api.fetched_ok s (i :: ids)
  = (match fst (Api.fetch_gene_info i s) with
     | Ok g => [g]
     | Raise _ => []
     end ++ Api.fetched_ok s ids)%list.
Proof. reflexivity. Qed.

(** The loop never raises, asks once for every id, and keeps the genes
    fetched whose name is the symbol up to case. *)
Lemma api_fetch_each_run (symbol : string) (ids : list string) :
  forall (genes : list Api.GeneInfo.t) (s : Api.state),
    fst (Api.fetch_each symbol ids genes s)
    = Ok (genes ++ filter (Api.named symbol) (Api.fetched_ok s ids))%list
    /\ (Api.gateway_calls (snd (Api.fetch_each symbol ids genes s))
        = Api.gateway_calls s + List.length ids)%nat.
Proof.
  induction ids as [|i ids IH]; intros genes s; cbn [Api.fetch_each].
  - unfold Api.ret. simpl. rewrite app_nil_r, Nat.add_0_r. auto.
  - pose proof (api_fetch_gene_info_run i s) as Hrun.
    set (s1 := Api.requested s "esummary" (gene_params i)) in *.
    destruct (api_requested_frame s "esummary" (gene_params i))
      as (Hb & Hu & Hc). fold s1 in Hb, Hu, Hc.
    assert (Hst : Api.fetched_ok s1 ids = Api.fetched_ok s ids)
      by (apply api_fetched_ok_stable; assumption).
    rewrite api_fetched_ok_cons, Hrun. cbn [fst].
    destruct (and_then (Api.answer s "esummary" (gene_params i))
                (Api.parse_gene i)) as [g|e].
    + rewrite filter_app. cbn [filter]. fold (Api.named symbol g).
      destruct (Api.named symbol g).
      * destruct (IH (genes ++ [g])%list s1) as (H1 & H2).
        rewrite H1, H2, Hst, Hc, <- app_assoc. cbn [List.length].
        split; [reflexivity|lia].
      * destruct (IH genes s1) as (H1 & H2).
        rewrite H1, H2, Hst, Hc. cbn [List.length app].
        split; [reflexivity|lia].
    + destruct (IH genes s1) as (H1 & H2).
      rewrite H1, H2, Hst, Hc. cbn [List.length app filter].
      split; [reflexivity|lia].
Qed.

End ApiRuns.

Section ApiClaims.
Context {RT : Runtime}.

Lemma api_gene_found (gene_id : string) (s : Api.state) (gene_data : dict) :
  holds (Api.answer s "esummary" (gene_params gene_id)) gene_id
    (Some (JDict gene_data)) ->
  gene_data <> [] ->
  fst (Api.fetch_gene_info gene_id s)
  = and_then (Api.collect_aliases gene_data)
      (Api.gene_entity gene_id gene_data).
Proof.
  intros (response & result & Ha & Hr & Hl) Hne.
  rewrite api_fetch_gene_info_run. simpl. rewrite Ha. simpl.
  assert (Hd : dict_get gene_id JNull result = JDict gene_data)
    by (unfold dict_get; rewrite Hl; reflexivity).
  unfold Api.parse_gene. simpl. rewrite Hr. simpl. rewrite Hd.
  destruct gene_data as [|kv gene_data]; [congruence|]. reflexivity.
Qed.

Lemma api_entity_with_aliases (gene_id : string) (gene_data : dict)
    (l : list string) (g0 : Api.GeneInfo.t) :
  Api.gene_entity gene_id gene_data (JList []) = Ok g0 ->
  Api.gene_entity gene_id gene_data (JList (map JStr l))
  = Ok (Api.with_aliases g0 l).
Proof.
  unfold Api.gene_entity, Api.new_GeneInfo. intros H. simpl in *.
  rewrite validate_strs_map.
  repeat match goal with
         | H : match ?x with _ => _ end = _ |- _ => destruct x; try discriminate
         end.
  injection H as <-. reflexivity.
Qed.

Lemma api_entity_no_aliases (gene_id : string) (gene_data : dict)
    (g0 : Api.GeneInfo.t) :
  Api.gene_entity gene_id gene_data (JList []) = Ok g0 ->
  Api.GeneInfo.other_aliases g0 = [].
Proof.
  unfold Api.gene_entity, Api.new_GeneInfo. intros H. simpl in *.
  repeat match goal with
         | H : match ?x with _ => _ end = _ |- _ => destruct x; try discriminate
         end.
  injection H as <-. reflexivity.
Qed.

(** X11.  The aliases in [api/app.py].  Take a record that is there and whose
    other fields fit the entity.  When the field is absent or falsy
    (null, the empty string, an empty list) [other_aliases] is the empty
    list; a non-empty string is cut at every comma followed by a blank
    and the pieces are not trimmed; and any other truthy value (a list of
    aliases, for one) makes the fetch raise [AttributeError]. *)
Theorem api_aliases_of_a_gene (gene_id : string) (s : Api.state)
    (gene_data : dict) (g0 : Api.GeneInfo.t) :
  holds (Api.answer s "esummary" (gene_params gene_id)) gene_id
    (Some (JDict gene_data)) ->
  gene_data <> [] ->
  Api.gene_entity gene_id gene_data (JList []) = Ok g0 ->
  (dict_lookup "otheraliases" gene_data = None
   \/ (exists v, dict_lookup "otheraliases" gene_data = Some v
                 /\ truthy v = false) ->
   fst (Api.fetch_gene_info gene_id s) = Ok g0
   /\ Api.GeneInfo.other_aliases g0 = [])
  /\ (forall a,
         a <> "" ->
         dict_lookup "otheraliases" gene_data = Some (JStr a) ->
         fst (Api.fetch_gene_info gene_id s)
         = Ok (Api.with_aliases g0 (split ", " a)))
  /\ (forall v,
         dict_lookup "otheraliases" gene_data = Some v ->
         truthy v = true ->
         (forall a, v <> JStr a) ->
         fst (Api.fetch_gene_info gene_id s) = Raise AttributeError)
  /\ split ", " "TP53, p53, TRP53" = ["TP53"; "p53"; "TRP53"]
  /\ split ", " "TP53 ,p53" = ["TP53 ,p53"].
Proof.
  intros Hh Hne Hg0. rewrite (api_gene_found gene_id s gene_data Hh Hne).
  unfold Api.collect_aliases, dict_mem, dict_get.
  split; [|split; [|split; [|split]]]; try reflexivity.
  - intros [Ha|(v & Ha & Hv)]; rewrite Ha; [|rewrite Hv]; simpl;
      (split; [exact Hg0|apply (api_entity_no_aliases _ _ _ Hg0)]).
  - intros a Hn Ha. rewrite Ha.
    assert (Ht : truthy (JStr a) = true).
    { simpl. apply String.eqb_neq in Hn. rewrite Hn. reflexivity. }
    rewrite Ht. simpl. apply api_entity_with_aliases. exact Hg0.
  - intros v Ha Hv Hs. rewrite Ha, Hv.
    destruct v; try reflexivity. exfalso. apply (Hs s0). reflexivity.
Qed.

(** X12.  The search by symbol of [api/app.py] fetches the first ten ids and no
    more, and returns, of the genes it fetched, those whose name is the
    symbol up to case; it fails exactly when its search fails. *)
Theorem api_symbol_search_filters_and_caps
    (symbol : string) (organism : option string) (s : Api.state) :
  let query := Api.symbol_query symbol organism in
  (forall sr s1,
      Api.search_genes query 50 s = (Ok sr, s1) ->
      fst (Api.search_by_gene_symbol symbol organism s)
      = Ok (filter (Api.named symbol)
              (Api.fetched_ok s1 (firstn 10 (SearchResult.ids sr))))
      /\ Api.gateway_calls (snd (Api.search_by_gene_symbol symbol organism s))
         = (Api.gateway_calls s + 1
            + Nat.min 10 (List.length (SearchResult.ids sr)))%nat)
  /\ (forall e s1,
         Api.search_genes query 50 s = (Raise e, s1) ->
         Api.search_by_gene_symbol symbol organism s = (Raise e, s1)
         /\ Api.gateway_calls s1 = (Api.gateway_calls s + 1)%nat).
Proof.
  intros query. split.
  - intros sr s1 H. unfold Api.search_by_gene_symbol, Api.bind. cbv zeta.
    fold query. rewrite H.
    destruct (api_fetch_each_run symbol (firstn 10 (SearchResult.ids sr)) [] s1)
      as (H1 & H2).
    rewrite H1, H2, length_firstn. split; [reflexivity|].
    rewrite api_search_genes_run in H. injection H as _ <-.
    destruct (api_requested_frame s "esearch" (search_params query 50))
      as (_ & _ & Hc).
    rewrite Hc. lia.
  - intros e s1 H. unfold Api.search_by_gene_symbol, Api.bind. cbv zeta.
    fold query. rewrite H. split; [reflexivity|].
    rewrite api_search_genes_run in H. injection H as _ <-.
    destruct (api_requested_frame s "esearch" (search_params query 50))
      as (_ & _ & Hc).
    rewrite Hc. lia.
Qed.

End ApiClaims.

Lemma api_requested_trace (s : Api.state) (endpoint : string) (given : dict) :
  exists events,
    trace (Api.world (Api.requested s endpoint given))
    = (trace (Api.world s) ++ events
         ++ [EvGet (Api.request_of (Api.self s) endpoint given)])%list
    /\ filter is_get events = [].
Proof.
  destruct (api_rate_limit_returns s) as (_ & _ & _ & events & Ht & Hg).
  exists events. split; [|exact Hg].
  unfold Api.requested; simpl. rewrite Ht, <- app_assoc. reflexivity.
Qed.

Lemma string_append_assoc (a b c : string) :
  (a ++ b) ++ c = a ++ (b ++ c).
Proof. induction a as [|x a IH]; simpl; [|rewrite IH]; reflexivity. Qed.

Section ApiQuery.
Context {RT : Runtime}.

Lemma api_fetch_each_trace (symbol : string) (ids : list string) :
  forall (genes : list Api.GeneInfo.t) (s : Api.state),
  exists rest,
    trace (Api.world (snd (Api.fetch_each symbol ids genes s)))
    = (trace (Api.world s) ++ rest)%list.
Proof.
  induction ids as [|i ids IH]; intros genes s; cbn [Api.fetch_each].
  - exists []. unfold Api.ret. simpl. rewrite app_nil_r. reflexivity.
  - rewrite (api_fetch_gene_info_run i s).
    destruct (api_requested_trace s "esummary" (gene_params i))
      as (events & Ht & _).
    set (s1 := Api.requested s "esummary" (gene_params i)) in *.
    assert (Hany : forall g, exists rest,
               trace (Api.world (snd (Api.fetch_each symbol ids g s1)))
               = (trace (Api.world s) ++ rest)%list).
    { intros g. destruct (IH g s1) as (rest & Hr).
      eexists. rewrite Hr, Ht, <- !app_assoc. reflexivity. }
    destruct (and_then (Api.answer s "esummary" (gene_params i))
                (Api.parse_gene i)) as [g|e]; [|apply Hany].
    destruct (points_eqb (upper (Api.GeneInfo.name g)) (upper symbol));
      apply Hany.
Qed.

(** X13.  The search by symbol of [api/app.py] begins with one search request
    for at most 50 ids whose term is the symbol marked "[gene symbol]";
    an organism, when given and not empty, is added to the term, and the
    organism "human", in any letter case, is sent as "Homo sapiens". *)
Theorem api_symbol_search_request
    (symbol : string) (organism : option string) (s : Api.state) :
  (exists events r rest,
      trace (Api.world (snd (Api.search_by_gene_symbol symbol organism s)))
      = (trace (Api.world s) ++ events ++ EvGet r :: rest)%list
      /\ filter is_get events = []
      /\ url r = Api.base_url (Api.self s) ++ "/esearch.fcgi"
      /\ dict_lookup "db" (params r) = Some (JStr "gene")
      /\ dict_lookup "retmax" (params r) = Some (JInt 50)
      /\ dict_lookup "term" (params r)
         = Some (JStr (Api.symbol_query symbol organism)))
  /\ (forall o,
         organism = Some o -> lower o = "human" ->
         Api.symbol_query symbol organism
         = symbol ++ "[gene symbol] AND Homo sapiens[organism]")
  /\ (forall o,
         organism = Some o -> o <> "" -> lower o <> "human" ->
         Api.symbol_query symbol organism
         = symbol ++ "[gene symbol] AND " ++ o ++ "[organism]")
  /\ (organism = None \/ organism = Some "" ->
      Api.symbol_query symbol organism = symbol ++ "[gene symbol]").
Proof.
  split; [|split; [|split]].
  - set (query := Api.symbol_query symbol organism).
    destruct (api_requested_trace s "esearch" (search_params query 50))
      as (events & Ht & Hg).
    assert (Hrest : exists rest,
               trace (Api.world
                        (snd (Api.search_by_gene_symbol symbol organism s)))
               = (trace (Api.world
                           (Api.requested s "esearch" (search_params query 50)))
                    ++ rest)%list).
    { unfold Api.search_by_gene_symbol, Api.bind. cbv zeta. fold query.
      rewrite api_search_genes_run.
      destruct (and_then (Api.answer s "esearch" (search_params query 50))
                  parse_search) as [sr|e].
      - apply api_fetch_each_trace.
      - exists []. cbn [snd]. rewrite app_nil_r. reflexivity. }
    destruct Hrest as (rest & Hrest).
    exists events, (Api.request_of (Api.self s) "esearch"
                      (search_params query 50)), rest.
    split.
    { rewrite Hrest, Ht, <- !app_assoc. reflexivity. }
    split; [exact Hg|]. split; [reflexivity|].
    unfold Api.request_of; cbn [params].
    repeat split; rewrite dict_lookup_update; reflexivity.
  - intros o -> Hl. unfold Api.symbol_query.
    assert (Hne : String.eqb o "" = false).
    { destruct o; [discriminate|reflexivity]. }
    unfold truthy_opt. rewrite Hne, Hl. simpl negb. cbv iota.
    rewrite string_append_assoc. reflexivity.
  - intros o -> Hne Hl. unfold Api.symbol_query, truthy_opt.
    apply String.eqb_neq in Hne, Hl. rewrite Hne, Hl. simpl negb. cbv iota.
    rewrite string_append_assoc. reflexivity.
  - intros [->| ->]; reflexivity.
Qed.

End ApiQuery.

Lemma api_symbol_search_request_witness :
  Api.symbol_query "BRCA1" (Some "HUMAN")
  = "BRCA1[gene symbol] AND Homo sapiens[organism]"
  /\ Api.symbol_query "BRCA1" (Some "mouse")
     = "BRCA1[gene symbol] AND mouse[organism]".
Proof.
  destruct (api_symbol_search_request "BRCA1" (Some "HUMAN") ApiProbe.start)
    as (_ & H & _).
  destruct (api_symbol_search_request "BRCA1" (Some "mouse") ApiProbe.start)
    as (_ & _ & H' & _).
  split.
  - apply (H "HUMAN"); reflexivity.
  - apply (H' "mouse"); [reflexivity|discriminate|discriminate].
Defined.

Lemma api_aliases_of_a_gene_witness :
  fst (Api.fetch_gene_info "672" ApiProbe.start)
  = Ok (Api.GeneInfo.make "672" "BRCA1" "BRCA1 DNA repair associated"
          "Homo sapiens" (Some "17") None None ["BRCAI"; "BRCC1,IRIS"] None)
  /\ fst (Api.fetch_gene_info "673" ApiProbe.start)
     = Ok (Api.GeneInfo.make "673" "brca1" "BRCA1 DNA repair associated"
             "Homo sapiens" (Some "17") None None [] None)
  /\ fst (Api.fetch_gene_info "674" ApiProbe.start) = Raise AttributeError.
Proof.
  assert (Hh : forall id record,
             dict_lookup id ApiProbe.summaries = Some record ->
             holds (Api.answer ApiProbe.start "esummary" (gene_params id)) id
               (Some record)).
  { intros id record H.
    exists [("result", JDict ApiProbe.summaries)], ApiProbe.summaries.
    split; [reflexivity|]. split; [reflexivity|exact H]. }
  split; [|split].
  - destruct (api_aliases_of_a_gene "672" ApiProbe.start
                (Fixture.fields_of
                   (ApiProbe.gene (JStr "BRCA1") (JStr "BRCAI, BRCC1,IRIS")))
                (Api.GeneInfo.make "672" "BRCA1" "BRCA1 DNA repair associated"
                   "Homo sapiens" (Some "17") None None [] None))
      as (_ & H & _).
    + apply Hh. reflexivity.
    + discriminate.
    + reflexivity.
    + rewrite (H "BRCAI, BRCC1,IRIS"); [reflexivity|discriminate|reflexivity].
  - destruct (api_aliases_of_a_gene "673" ApiProbe.start
                (Fixture.fields_of (ApiProbe.gene (JStr "brca1") (JStr "")))
                (Api.GeneInfo.make "673" "brca1" "BRCA1 DNA repair associated"
                   "Homo sapiens" (Some "17") None None [] None))
      as (H & _).
    + apply Hh. reflexivity.
    + discriminate.
    + reflexivity.
    + apply H. right. exists (JStr ""). split; reflexivity.
  - destruct (api_aliases_of_a_gene "674" ApiProbe.start
                (Fixture.fields_of
                   (ApiProbe.gene (JStr "BRCA2") (JList [JStr "FAD"])))
                (Api.GeneInfo.make "674" "BRCA2" "BRCA1 DNA repair associated"
                   "Homo sapiens" (Some "17") None None [] None))
      as (_ & _ & H & _).
    + apply Hh. reflexivity.
    + discriminate.
    + reflexivity.
    + apply (H (JList [JStr "FAD"])); [reflexivity|reflexivity|discriminate].
Defined.

Lemma api_probe_search :
  fst (Api.search_genes (Api.symbol_query "BRCA1" None) 50 ApiProbe.start)
  = Ok (SearchResult.make 14
          ["672"; "673"; "674"; "675"; "676"; "677"; "678"; "679"; "680";
           "681"; "672"; "672"; "672"; "672"] None).
Proof. vm_compute. reflexivity. Qed.

Lemma api_symbol_search_filters_and_caps_witness :
  Api.gateway_calls (snd (Api.search_by_gene_symbol "BRCA1" None ApiProbe.start))
  = 11%nat
  /\ exists genes,
       fst (Api.search_by_gene_symbol "BRCA1" None ApiProbe.start) = Ok genes
       /\ map Api.GeneInfo.gene_id genes = ["672"; "673"].
Proof.
  destruct (api_symbol_search_filters_and_caps "BRCA1" None ApiProbe.start)
    as (H & _).
  destruct (H (SearchResult.make 14
                 ["672"; "673"; "674"; "675"; "676"; "677"; "678"; "679";
                  "680"; "681"; "672"; "672"; "672"; "672"] None)
              (snd (Api.search_genes (Api.symbol_query "BRCA1" None) 50
                      ApiProbe.start)))
    as (Hr & Hc).
  - rewrite <- api_probe_search. apply surjective_pairing.
  - split; [rewrite Hc; reflexivity|].
    eexists. split; [exact Hr|].
    rewrite (api_fetched_ok_stable _ _ ApiProbe.start);
      [vm_compute; reflexivity| |];
      rewrite api_search_genes_run; cbn [snd];
      apply api_requested_frame.
Defined.

(** * The tool server *)

Section McpFacts.
Context {RT : Runtime} {HO : Host}.

(** For strings the operations the server calls are the operations of the
    bridge. *)
Lemma search_genes_any_typed (query : string) (n : Z) :
  Mcp.search_genes_any (JStr query) (JInt n) = search_genes query n.
Proof. reflexivity. Qed.

Lemma fetch_gene_info_any_typed (gene_id : string) (s : state) :
  Mcp.fetch_gene_info_any (JStr gene_id) s = fetch_gene_info gene_id s.
Proof.
  unfold Mcp.fetch_gene_info_any, fetch_gene_info, bind.
  destruct (_make_request "esummary" _ s) as [[doc|e] s1]; reflexivity.
Qed.

Lemma search_by_gene_symbol_any_typed (symbol : string)
    (organism : option string) :
  Mcp.search_by_gene_symbol_any (JStr symbol)
    (match organism with Some o => JStr o | None => JNull end)
  = search_by_gene_symbol symbol organism.
Proof.
  unfold Mcp.search_by_gene_symbol_any, search_by_gene_symbol, symbol_query.
  destruct organism as [o|]; [|reflexivity].
  cbn [truthy truthy_opt py_str]. destruct (negb (String.eqb o "")); reflexivity.
Qed.


Lemma send_response_bridge (result : json) (error : option string)
    (srv : Mcp.MCPServer) :
  Mcp.bridge (Mcp.send_response result error srv) = Mcp.bridge srv.
Proof. reflexivity. Qed.





(** X14.  A tool called without the argument it requires, or with one that is
    falsy (null, the empty string, zero, an empty list), is refused with
    the error "... is required": the bridge is not called and the network
    is not asked. *)
Theorem missing_argument_is_refused (params arguments : dict)
    (tool arg : string) (srv : Mcp.MCPServer) :
  In (tool, arg) Mcp.required_argument ->
  dict_lookup "name" params = Some (JStr tool) ->
  dict_get "arguments" (JDict []) params = JDict arguments ->
  truthy (dict_get arg JNull arguments) = false ->
  Mcp.handle_call_tool (JDict params) srv
  = (Ok tt,
     Mcp.print (Mcp.Stdout (Mcp.error_doc (Mcp.request_id srv)
                              (arg ++ " is required"))) srv)
  /\ Mcp.bridge (snd (Mcp.handle_call_tool (JDict params) srv))
     = Mcp.bridge srv
  /\ gateway_calls (Mcp.bridge (snd (Mcp.handle_call_tool (JDict params) srv)))
     = gateway_calls (Mcp.bridge srv).
Proof.
  intros Hin Hname Hargs Hfalsy.
  assert (H : Mcp.handle_call_tool (JDict params) srv
              = (Ok tt,
                 Mcp.print (Mcp.Stdout (Mcp.error_doc (Mcp.request_id srv)
                                          (arg ++ " is required"))) srv)).
  { assert (Hn : dict_get "name" JNull params = JStr tool)
      by (unfold dict_get; rewrite Hname; reflexivity).
    unfold Mcp.handle_call_tool. cbn [as_dict]. f_equal.
    rewrite Hn, Hargs. unfold Mcp.required_argument in Hin.
    destruct Hin as [E|[E|[E|[E|[]]]]]; injection E as <- <-;
      cbn [Mcp.is_str String.eqb Ascii.eqb Bool.eqb andb Mcp.with_arguments];
      cbv beta zeta; rewrite Hfalsy; reflexivity. }
  rewrite H. cbn [snd]. auto.
Qed.

End McpFacts.

Section McpLoop.
Context {RT : Runtime} {HO : Host}.




(** X17.  A line that decodes to something that is no object (a list, a
    number, a string) ends the loop with [AttributeError]: no response is
    printed for it and the lines after it are never read. *)
Theorem serve_stops_at_a_non_object (before after : list string)
    (line : string) (v : json) :
  forall srv : Mcp.MCPServer,
    fst (Mcp.serve before srv) = Ok tt ->
    strip line <> "" ->
    json_loads (strip line) = Some v ->
    (forall d, v <> JDict d) ->
    Mcp.serve (before ++ line :: after) srv
    = (Raise AttributeError, snd (Mcp.serve before srv)).
Proof.
  induction before as [|l before IH]; intros srv Hok Hne Hj Hv.
  - cbn [app Mcp.serve snd]. apply String.eqb_neq in Hne. rewrite Hne, Hj.
    unfold Mcp.handle_request.
    destruct v; try reflexivity. exfalso. apply (Hv d). reflexivity.
  - cbn [app Mcp.serve] in *.
    destruct (String.eqb (strip l) ""); [apply IH; assumption|].
    destruct (json_loads (strip l)) as [r|]; [|apply IH; assumption].
    destruct (Mcp.handle_request r srv) as [[[]|e] srv'];
      [apply IH; assumption|discriminate].
Qed.

End McpLoop.

Lemma missing_argument_is_refused_witness :
  Mcp.handle_call_tool
    (JDict [("name", JStr "fetch_gene_info");
            ("arguments", JDict [("gene_id", JStr "")])])
    McpProbe.start
  = (Ok tt,
     Mcp.print (Mcp.Stdout (Mcp.error_doc (JInt 0) "gene_id is required"))
       McpProbe.start).
Proof.
  destruct (missing_argument_is_refused
              [("name", JStr "fetch_gene_info");
               ("arguments", JDict [("gene_id", JStr "")])]
              [("gene_id", JStr "")] "fetch_gene_info" "gene_id"
              McpProbe.start) as (H & _).
  - right. left. reflexivity.
  - reflexivity.
  - reflexivity.
  - reflexivity.
  - exact H.
Defined.


Lemma serve_stops_at_a_non_object_witness :
  fst (Mcp.serve ["{tools/list 7}"; "[1, 2]"; "{tools/list 7}"] McpProbe.start)
  = Raise AttributeError
  /\ List.length
       (Mcp.answers
          (snd (Mcp.serve ["{tools/list 7}"; "[1, 2]"; "{tools/list 7}"]
                  McpProbe.start)))
     = 1%nat.
Proof.
  rewrite (serve_stops_at_a_non_object ["{tools/list 7}"] ["{tools/list 7}"]
             "[1, 2]" (JList [JInt 1; JInt 2]) McpProbe.start).
  - split; [reflexivity|]. vm_compute. reflexivity.
  - reflexivity.
  - discriminate.
  - reflexivity.
  - discriminate.
Defined.

(** * The web handlers *)

Section WebFacts.
Context {RT : Runtime} {HO : Host} {WH : WebHost}.

(** X18.  A blank query or symbol is turned away by the handlers of
    [web_app.py] before the bridge is called, so that the network is not
    asked; but the status 400 they raise is caught by their own [except]
    and leaves as status 500, with the text of the 400 in the detail. *)
Theorem blank_input_is_answered_with_500 (s : state) :
  (forall query max_results,
      strip query = "" ->
      Web.search_genes_api query max_results s
      = (Web.HTTPException 500
           ("Search failed: "
              ++ http_exception_text 400 "Query cannot be empty"), s))
  /\ (forall symbol organism,
         strip symbol = "" ->
         Web.search_by_symbol_api symbol organism s
         = (Web.HTTPException 500
              ("Symbol search failed: "
                 ++ http_exception_text 400 "Gene symbol cannot be empty"), s)).
Proof.
  split.
  - intros query n Hb. unfold Web.search_genes_api, Web.search_genes_try.
    rewrite Hb. reflexivity.
  - intros symbol organism Hb.
    unfold Web.search_by_symbol_api, Web.search_by_symbol_try.
    rewrite Hb. reflexivity.
Qed.

(** X19.  The handlers answer with status 200 or 500 and nothing else, and
    with 500 exactly when the bridge raised or the input was blank.
    [get_gene_info_api] checks nothing: whatever the id, the empty one
    included, it asks the network once. *)
Theorem handlers_answer_200_or_500 (s : state) :
  (forall query max_results,
      Web.status_of (fst (Web.search_genes_api query max_results s))
      = if String.eqb (strip query) "" then 500
        else if is_ok (fst (search_genes query max_results s)) then 200
             else 500)
  /\ (forall symbol organism,
         Web.status_of (fst (Web.search_by_symbol_api symbol organism s))
         = if String.eqb (strip symbol) "" then 500
           else if is_ok (fst (search_by_gene_symbol symbol organism s))
                then 200 else 500)
  /\ (forall gene_id,
         Web.status_of (fst (Web.get_gene_info_api gene_id s))
         = (if is_ok (fst (fetch_gene_info gene_id s)) then 200 else 500)
         /\ gateway_calls (snd (Web.get_gene_info_api gene_id s))
            = S (gateway_calls s)).
Proof.
  split; [|split].
  - intros query n. unfold Web.search_genes_api, Web.search_genes_try.
    cbn [truthy negb]. destruct (String.eqb (strip query) ""); [reflexivity|].
    cbn [negb]. destruct (search_genes query n s) as [[r|e] s']; reflexivity.
  - intros symbol organism.
    unfold Web.search_by_symbol_api, Web.search_by_symbol_try.
    cbn [truthy negb]. destruct (String.eqb (strip symbol) ""); [reflexivity|].
    cbn [negb].
    destruct (search_by_gene_symbol symbol organism s) as [[r|e] s'];
      reflexivity.
  - intros gene_id. unfold Web.get_gene_info_api.
    rewrite fetch_gene_info_run.
    destruct (and_then (answer s "esummary" (gene_params gene_id))
                (parse_gene gene_id)); cbn [fst snd Web.status_of is_ok];
      (split; [reflexivity|apply requested_calls]).
Qed.

End WebFacts.

Lemma blank_input_is_answered_with_500_witness :
  Web.search_genes_api "   " 20 Fixture.start
  = (Web.HTTPException 500 "Search failed: 400: Query cannot be empty",
     Fixture.start).
Proof.
  destruct (blank_input_is_answered_with_500 Fixture.start) as (H & _).
  apply (H "   " 20). reflexivity.
Defined.

(** * The request of a search by symbol, and the errors of a tool *)

Section SymbolRequest.
Context {RT : Runtime}.

Lemma fetch_each_trace (ids : list string) :
  forall (genes : list GeneInfo.t) (s : state),
  exists rest,
    trace (world (snd (fetch_each ids genes s)))
    = (trace (world s) ++ rest)%list.
Proof.
  induction ids as [|i ids IH]; intros genes s; cbn [fetch_each].
  - exists []. unfold ret. simpl. rewrite app_nil_r. reflexivity.
  - rewrite (fetch_gene_info_run i s).
    pose proof (requested_trace s "esummary" (gene_params i)) as Ht.
    set (s1 := requested s "esummary" (gene_params i)) in *.
    assert (Hany : forall g, exists rest,
               trace (world (snd (fetch_each ids g s1)))
               = (trace (world s) ++ rest)%list).
    { intros g. destruct (IH g s1) as (rest & Hr).
      eexists. rewrite Hr, Ht, <- !app_assoc. reflexivity. }
    destruct (and_then (answer s "esummary" (gene_params i)) (parse_gene i));
      apply Hany.
Qed.

(** X20.  The search by symbol of [bridge.py] begins with one search
    request on the gene database for at most 10 ids whose term is the
    symbol marked "[gene]"; an organism, when given and not empty, is
    added to the term as it is, "human" included: this bridge knows no
    other name for it. *)
Theorem symbol_search_request
    (symbol : string) (organism : option string) (s : state) :
  (exists r rest,
      trace (world (snd (search_by_gene_symbol symbol organism s)))
      = (trace (world s) ++ acquire_events s ++ EvGet r :: rest)%list
      /\ url r = base_url (config (self s)) ++ "/esearch.fcgi"
      /\ dict_lookup "db" (params r) = Some (JStr "gene")
      /\ dict_lookup "retmax" (params r) = Some (JInt 10)
      /\ dict_lookup "term" (params r)
         = Some (JStr (symbol_query symbol organism)))
  /\ (forall o,
         organism = Some o -> o <> "" ->
         symbol_query symbol organism
         = symbol ++ "[gene] AND " ++ o ++ "[organism]")
  /\ (organism = None \/ organism = Some "" ->
      symbol_query symbol organism = symbol ++ "[gene]").
Proof.
  split; [|split].
  - set (query := symbol_query symbol organism).
    pose proof (requested_trace s "esearch" (search_params query 10)) as Ht.
    assert (Hrest : exists rest,
               trace (world (snd (search_by_gene_symbol symbol organism s)))
               = (trace (world (requested s "esearch" (search_params query 10)))
                    ++ rest)%list).
    { unfold search_by_gene_symbol, bind. cbv zeta. fold query.
      rewrite search_genes_run.
      destruct (and_then (answer s "esearch" (search_params query 10))
                  parse_search) as [sr|e].
      - apply fetch_each_trace.
      - exists []. cbn [snd]. rewrite app_nil_r. reflexivity. }
    destruct Hrest as (rest & Hrest).
    exists (request_of (self s) "esearch" (search_params query 10)), rest.
    split.
    { rewrite Hrest, Ht, <- !app_assoc. reflexivity. }
    split; [reflexivity|].
    unfold request_of; cbn [params].
    repeat split; rewrite dict_lookup_update, common_params_lookup; reflexivity.
  - intros o -> Hne. unfold symbol_query, truthy_opt.
    apply String.eqb_neq in Hne. rewrite Hne. simpl negb. cbv iota.
    rewrite string_append_assoc. reflexivity.
  - intros [->| ->]; reflexivity.
Qed.

End SymbolRequest.

Section ToolErrors.
Context {RT : Runtime} {HO : Host}.

(** X21.  When the tool [fetch_gene_info] is called with an id that is a
    non-empty string and the service holds no record (or a falsy one)
    under it, the server answers with the error
    "No data found for gene ID: " followed by the id, after one request
    to the network. *)
Theorem unknown_gene_is_an_error_response (params arguments : dict)
    (gene_id : string) (record : option json) (srv : Mcp.MCPServer) :
  dict_lookup "name" params = Some (JStr "fetch_gene_info") ->
  dict_get "arguments" (JDict []) params = JDict arguments ->
  dict_lookup "gene_id" arguments = Some (JStr gene_id) ->
  gene_id <> "" ->
  holds (answer (Mcp.bridge srv) "esummary" (gene_params gene_id)) gene_id
    record ->
  match record with Some r => truthy r = false | None => True end ->
  exists srv',
    Mcp.handle_call_tool (JDict params) srv = (Ok tt, srv')
    /\ Mcp.printed srv'
       = (Mcp.printed srv
            ++ [Mcp.Stdout
                  (Mcp.error_doc (Mcp.request_id srv)
                     ("No data found for gene ID: " ++ gene_id))])%list
    /\ gateway_calls (Mcp.bridge srv') = S (gateway_calls (Mcp.bridge srv)).
Proof.
  intros Hname Hargs Hid Hne Hh Hf.
  assert (Hn : dict_get "name" JNull params = JStr "fetch_gene_info")
    by (unfold dict_get; rewrite Hname; reflexivity).
  assert (Hg : dict_get "gene_id" JNull arguments = JStr gene_id)
    by (unfold dict_get; rewrite Hid; reflexivity).
  assert (Ht : truthy (JStr gene_id) = true).
  { simpl. apply String.eqb_neq in Hne. rewrite Hne. reflexivity. }
  pose proof (gene_not_found gene_id (Mcp.bridge srv) record Hh Hf) as Hraise.
  pose proof (fetch_gene_info_run gene_id (Mcp.bridge srv)) as Hrun.
  rewrite Hrun in Hraise. cbn [fst] in Hraise.
  unfold Mcp.handle_call_tool. cbn [as_dict]. eexists. split; [reflexivity|].
  rewrite Hn, Hargs.
  cbn [Mcp.is_str String.eqb Ascii.eqb Bool.eqb andb Mcp.with_arguments].
  cbv beta zeta. rewrite Hg, Ht. cbn [negb]. unfold Mcp.call_bridge.
  rewrite fetch_gene_info_any_typed, Hrun, Hraise.
  cbn [Mcp.exn_text Mcp.send_response Mcp.print Mcp.with_bridge Mcp.printed
       Mcp.bridge Mcp.request_id truthy_opt].
  assert (Hm : negb (String.eqb ("No data found for gene ID: " ++ gene_id) "")
               = true) by reflexivity.
  rewrite Hm. split; [reflexivity|apply requested_calls].
Qed.

End ToolErrors.

Lemma symbol_search_request_witness :
  symbol_query "BRCA1" (Some "human") = "BRCA1[gene] AND human[organism]"
  /\ symbol_query "BRCA1" (Some "") = "BRCA1[gene]".
Proof.
  destruct (symbol_search_request "BRCA1" (Some "human") Fixture.start)
    as (_ & H & _).
  destruct (symbol_search_request "BRCA1" (Some "") Fixture.start)
    as (_ & _ & H').
  split.
  - apply (H "human"); [reflexivity|discriminate].
  - apply H'. right. reflexivity.
Defined.

Lemma unknown_gene_is_an_error_response_witness :
  exists srv',
    Mcp.handle_call_tool
      (JDict [("name", JStr "fetch_gene_info");
              ("arguments", JDict [("gene_id", JStr "675")])])
      McpProbe.start = (Ok tt, srv')
    /\ Mcp.answers srv'
       = [Mcp.error_doc (JInt 0) "No data found for gene ID: 675"].
Proof.
  destruct (unknown_gene_is_an_error_response
              [("name", JStr "fetch_gene_info");
               ("arguments", JDict [("gene_id", JStr "675")])]
              [("gene_id", JStr "675")] "675" None McpProbe.start)
    as (srv' & Hr & Hp & _).
  - reflexivity.
  - reflexivity.
  - reflexivity.
  - discriminate.
  - exists [("result", JDict Fixture.summaries)], Fixture.summaries.
    repeat split; vm_compute; reflexivity.
  - exact I.
  - exists srv'. split; [exact Hr|]. unfold Mcp.answers. rewrite Hp.
    reflexivity.
Defined.
